(** * graphs_func: charting helpers of the trading indicators dashboard

    A shallow embedding of the three pure helpers of [src/graphs_func.py]
    and the properties of them that the specification states:

    - [get_font_size]               (label font size from the text length),
    - [calculate_quarterly_dates]   (last Friday of each quarter end, shifted),
    - [adjust_limits]               (rounded axis bounds and tick step),

    followed by the counter class [IndexCounter] and the drawing functions
    ([plot_vertical_lines], [setup_x_axis], [draw_trade_info], [draw_line],
    [draw_price], [draw_bar]) as sequences of calls on the axes.

    Python values are modelled as follows.
    - [int] is [Z]; [str] is [string]; a list is a [list].
    - A [pd.Timestamp] is the number of days since 1970-01-01 (the index is
      taken at day resolution, every entry at midnight, none of them NaT);
      the bounds pandas sets to dates and spans are checked where the code
      forms one.
    - A call either returns or raises: [outcome].
    - [float] arithmetic is an interface, [Arith], with two instances:
      IEEE binary64 ([PrimFloat.float], the algorithm as executed) and exact
      rationals ([Q], the algorithm as designed, without rounding).  What
      holds of the rationals alone is not claimed of the code. *)

From Stdlib Require Import ZArith QArith Qround Qabs Qpower List Sorted String Bool.
From Stdlib Require Import Lia Lqa.
From Stdlib Require Import Floats.
Import ListNotations.

Local Open Scope Z_scope.

(** ** Outcomes of a call *)

Inductive py_exn : Type :=
| TypeError
| OutOfBoundsDatetime       (* pandas: a Timestamp beyond its 64 bits *)
| OutOfBoundsTimedelta.     (* pandas: a Timedelta beyond its 64 bits *)

Inductive outcome (A : Type) : Type :=
| Returns (a : A)
| Raises (e : py_exn).

Arguments Returns {A} a.
Arguments Raises {A} e.

(** ** get_font_size *)

Module FontSize.

(** [get_font_size(text)], lines 39-57. *)
Definition get_font_size (text : string) : Z :=
  let length := Z.of_nat (String.length text) in
  if length <=? 14 then 10
  else if length <=? 18 then 9
  else if length <=? 22 then 8
  else 7.

Example font_size_short : get_font_size "close_d" = 10.
Proof. reflexivity. Qed.

Example font_size_15 : get_font_size "fifteen_letters" = 9.
Proof. reflexivity. Qed.

Example font_size_long : get_font_size "a_rather_long_indicator_name" = 7.
Proof. reflexivity. Qed.

Lemma get_font_size_cases (text : string) :
  let n := Z.of_nat (String.length text) in
  (n <= 14 /\ get_font_size text = 10) \/
  (14 < n <= 18 /\ get_font_size text = 9) \/
  (18 < n <= 22 /\ get_font_size text = 8) \/
  (22 < n /\ get_font_size text = 7).
Proof.
  unfold get_font_size; cbv zeta.
  destruct (Z.leb_spec (Z.of_nat (String.length text)) 14); [lia|].
  destruct (Z.leb_spec (Z.of_nat (String.length text)) 18); [lia|].
  destruct (Z.leb_spec (Z.of_nat (String.length text)) 22); lia.
Qed.

(** C10: the font size is one of 10, 9, 8, 7 and never grows with the
    length of the text. *)
Theorem get_font_size_range_antitone (s t : string) :
  (String.length s <= String.length t)%nat ->
  In (get_font_size s) [7; 8; 9; 10] /\
  In (get_font_size t) [7; 8; 9; 10] /\
  get_font_size t <= get_font_size s.
Proof.
  intros Hlen.
  pose proof (get_font_size_cases s) as Hs.
  pose proof (get_font_size_cases t) as Ht.
  cbv zeta in Hs, Ht.
  assert (Z.of_nat (String.length s) <= Z.of_nat (String.length t)) by lia.
  repeat split.
  - destruct Hs as [[_ ->]|[[_ ->]|[[_ ->]|[_ ->]]]]; simpl; auto.
  - destruct Ht as [[_ ->]|[[_ ->]|[[_ ->]|[_ ->]]]]; simpl; auto.
  - destruct Hs as [[? ->]|[[? ->]|[[? ->]|[? ->]]]];
    destruct Ht as [[? ->]|[[? ->]|[[? ->]|[? ->]]]]; lia.
Qed.

Lemma get_font_size_range_antitone_witness :
  (String.length "rsi" <= String.length "a_rather_long_indicator_name")%nat /\
  In (get_font_size "rsi") [7; 8; 9; 10] /\
  In (get_font_size "a_rather_long_indicator_name") [7; 8; 9; 10] /\
  get_font_size "a_rather_long_indicator_name" <= get_font_size "rsi".
Proof.
  split.
  - simpl; lia.
  - apply (get_font_size_range_antitone "rsi" "a_rather_long_indicator_name").
    simpl; lia.
Defined.

End FontSize.

(** ** calculate_quarterly_dates *)

Module Quarterly.

(** A [pd.Timestamp] at day resolution: days since 1970-01-01. *)
Definition Timestamp := Z.

(** Proleptic Gregorian calendar, as pandas computes its date fields. *)
Definition is_leapyear (year : Z) : bool :=
  ((year mod 4 =? 0) && negb (year mod 100 =? 0)) || (year mod 400 =? 0).

Definition days_in_month (year month : Z) : Z :=
  if month =? 2 then (if is_leapyear year then 29 else 28)
  else if (month =? 4) || (month =? 6) || (month =? 9) || (month =? 11) then 30
  else 31.

(** [pd.Timestamp(year, month, day)]: the day number of a civil date. *)
Definition mk_timestamp (year month day : Z) : Timestamp :=
  let y := if month <=? 2 then year - 1 else year in
  let era := y / 400 in
  let yoe := y - era * 400 in
  let mp := if 2 <? month then month - 3 else month + 9 in
  let doy := (153 * mp + 2) / 5 + day - 1 in
  let doe := yoe * 365 + yoe / 4 - yoe / 100 + doy in
  era * 146097 + doe - 719468.

(** [ts.year]: the year field of a day number. *)
Definition year_of (ts : Timestamp) : Z :=
  let z := ts + 719468 in
  let era := z / 146097 in
  let doe := z - era * 146097 in
  let yoe := (doe - doe / 1460 + doe / 36524 - doe / 146096) / 365 in
  let y := yoe + era * 400 in
  let doy := doe - (365 * yoe + yoe / 4 - yoe / 100) in
  let mp := (5 * doy + 2) / 153 in
  let m := if mp <? 10 then mp + 3 else mp - 9 in
  if m <=? 2 then y + 1 else y.

(** [ts.weekday()]: Monday is 0, Sunday is 6; 1970-01-01 was a Thursday. *)
Definition weekday (ts : Timestamp) : Z := (ts + 3) mod 7.

(** [pd.Timestamp(year, month, 1) + pd.offsets.MonthEnd(0)]: roll the first
    of the month forward to the month's end. *)
Definition month_end (year month : Z) : Timestamp :=
  mk_timestamp year month 1 + (days_in_month year month - 1).

(** [ts - pd.offsets.Week(weekday=wd)]: the [Week] offset with n = -1.  A
    date off the anchor weekday first moves forward to it, then one week is
    taken away; a date on the anchor weekday goes back a whole week. *)
Definition minus_week (ts : Timestamp) (wd : Z) : Timestamp :=
  let otherday := weekday ts in
  let other := if otherday =? wd then ts else ts + (wd - otherday) mod 7 in
  other - 7.

(** [ts in df.index]. *)
Definition index_contains (index : list Timestamp) (ts : Timestamp) : bool :=
  existsb (Z.eqb ts) index.

(** [df.index.year.min()] and [.max()]: pandas gives NaN (here [None]) for
    an empty index. *)
Definition year_min (index : list Timestamp) : option Z :=
  match map year_of index with
  | [] => None
  | y :: ys => Some (fold_left Z.min ys y)
  end.

Definition year_max (index : list Timestamp) : option Z :=
  match map year_of index with
  | [] => None
  | y :: ys => Some (fold_left Z.max ys y)
  end.

(** [range(start, stop)]. *)
Definition py_range (start stop : Z) : list Z :=
  map (fun i => start + Z.of_nat i) (seq 0 (Z.to_nat (stop - start))).

(** pandas keeps a [Timestamp] and a [Timedelta] as a signed 64-bit count
    of nanoseconds.  Midnight of day [d], and a span of [d] days, exist for
    [|d| <= 106751] only: from 1677-09-22 to 2262-04-11. *)
Definition max_days : Z := (2 ^ 63 - 1) / (86400 * 10 ^ 9).

Definition in_bounds (days : Z) : bool :=
  (- max_days <=? days) && (days <=? max_days).

(** The [Timestamp] a constructor, an offset or a subtraction gives. *)
Definition checked (days : Z) : outcome Timestamp :=
  if in_bounds days then Returns days else Raises OutOfBoundsDatetime.

(** [pd.Timedelta(days=n)]. *)
Definition Timedelta (n : Z) : outcome Z :=
  if in_bounds n then Returns n else Raises OutOfBoundsTimedelta.

(** Sequencing of calls that may raise, and a [for] loop over them. *)
Definition and_then {A B : Type} (m : outcome A) (k : A -> outcome B)
    : outcome B :=
  match m with
  | Returns a => k a
  | Raises e => Raises e
  end.

Local Notation "x <- m ;; k" := (and_then m (fun x => k))
  (at level 100, m at next level, right associativity).

Fixpoint for_each {A S : Type} (items : list A) (body : S -> A -> outcome S)
    (state : S) : outcome S :=
  match items with
  | [] => Returns state
  | item :: items =>
      state <- body state item ;;
      for_each items body state
  end.

(** [ts - pd.offsets.Week(weekday=wd)], as [minus_week], with the bounds of
    the two sums it forms. *)
Definition sub_week (ts : Timestamp) (wd : Z) : outcome Timestamp :=
  let otherday := weekday ts in
  other <- (if otherday =? wd then Returns ts
            else checked (ts + (wd - otherday) mod 7)) ;;
  checked (other - 7).

(** [calculate_quarterly_dates(df, shift_back_days)], lines 60-94, statement
    by statement; [index] is [df.index], without NaT, and the result is the
    list the returned [pd.Series] holds.  On an empty index the year bounds
    are NaN and [range] raises [TypeError]; a date or a span that does not
    fit 64 bits of nanoseconds raises where it is formed.  (The bounds are
    those of nanosecond timestamps.  pandas 2 builds
    [pd.Timestamp(year, month, 1)] at microsecond resolution and meets the
    nanosecond bound only at the subtraction of line 88; for an index that
    reaches into 1677 it can therefore return where this definition
    raises.) *)
Definition calculate_quarterly_dates (index : list Timestamp)
    (shift_back_days : Z) : outcome (list Timestamp) :=
  let quarter_months := [3; 6; 9; 12] in
  for_each quarter_months
    (fun dates quarter_month =>
       match year_min index, year_max index with
       | Some lo, Some hi =>
           for_each (py_range lo (hi + 1))
             (fun dates year =>
                first <- checked (mk_timestamp year quarter_month 1) ;;
                last_day <-
                  checked (first + (days_in_month year quarter_month - 1)) ;;
                last_friday <-
                  (if weekday last_day =? 4 then Returns last_day
                   else sub_week last_day 4) ;;
                delta <- Timedelta shift_back_days ;;
                target_day <- checked (last_friday - delta) ;;
                if index_contains index target_day
                then Returns (dates ++ [target_day])
                else Returns dates)
             dates
       | _, _ => Raises TypeError
       end)
    [].

(** The parts of [calculate_quarterly_dates], by name: the dates it forms
    when every one of them is in bounds. *)

(** Line 72. *)
Definition quarter_months : list Z := [3; 6; 9; 12].

(** Lines 79-85: the last Friday of the month. *)
Definition last_friday (year quarter_month : Z) : Timestamp :=
  let last_day := month_end year quarter_month in
  if weekday last_day =? 4 then last_day else minus_week last_day 4.

(** Line 88. *)
Definition target_day (year quarter_month shift_back_days : Z) : Timestamp :=
  last_friday year quarter_month - shift_back_days.

(** Lines 77-92: the inner loop, appending to [dates]. *)
Definition year_loop (index : list Timestamp) (shift_back_days : Z)
    (years : list Z) (quarter_month : Z) (dates : list Timestamp) : list Timestamp :=
  fold_left
    (fun dates year =>
       let target := target_day year quarter_month shift_back_days in
       if index_contains index target then dates ++ [target] else dates)
    years dates.

(** Lines 76-92: the outer loop. *)
Definition quarter_loop (index : list Timestamp) (shift_back_days : Z)
    (years : list Z) : list Timestamp :=
  fold_left
    (fun dates quarter_month =>
       year_loop index shift_back_days years quarter_month dates)
    quarter_months [].

Lemma for_each_ext {A S : Type} (items : list A)
    (body body' : S -> A -> outcome S) :
  (forall state item, body state item = body' state item) ->
  forall state, for_each items body state = for_each items body' state.
Proof.
  intros Hext. induction items as [|item items IH]; intros state; simpl.
  - reflexivity.
  - rewrite Hext. destruct (body' state item); simpl; [apply IH|reflexivity].
Qed.

(** Lines 79-88: the candidate of one year and month, or the error met on
    the way to it. *)
Definition candidate (year quarter_month shift_back_days : Z)
    : outcome Timestamp :=
  first <- checked (mk_timestamp year quarter_month 1) ;;
  last_day <- checked (first + (days_in_month year quarter_month - 1)) ;;
  last_friday <-
    (if weekday last_day =? 4 then Returns last_day
     else sub_week last_day 4) ;;
  delta <- Timedelta shift_back_days ;;
  checked (last_friday - delta).

(** Lines 79-92: one pass through the body of the inner loop. *)
Definition year_step (index : list Timestamp) (shift_back_days : Z)
    (quarter_month : Z) (dates : list Timestamp) (year : Z)
    : outcome (list Timestamp) :=
  target_day <- candidate year quarter_month shift_back_days ;;
  if index_contains index target_day
  then Returns (dates ++ [target_day])
  else Returns dates.

Lemma calculate_quarterly_dates_eq (index : list Timestamp) (shift_back_days : Z) :
  calculate_quarterly_dates index shift_back_days =
  for_each quarter_months
    (fun dates quarter_month =>
       match year_min index, year_max index with
       | Some lo, Some hi =>
           for_each (py_range lo (hi + 1))
             (year_step index shift_back_days quarter_month) dates
       | _, _ => Raises TypeError
       end)
    [].
Proof.
  unfold calculate_quarterly_dates, quarter_months; cbv zeta.
  apply for_each_ext. intros dates quarter_month.
  destruct (year_min index) as [lo|]; [|reflexivity].
  destruct (year_max index) as [hi|]; [|reflexivity].
  apply for_each_ext. intros dates' year.
  unfold year_step, candidate.
  destruct (checked (mk_timestamp year quarter_month 1)) as [first|e];
    cbn [and_then]; [|reflexivity].
  destruct (checked (first + (days_in_month year quarter_month - 1)))
    as [last_day|e]; cbn [and_then]; [|reflexivity].
  destruct (if weekday last_day =? 4 then Returns last_day
            else sub_week last_day 4) as [last_friday|e];
    cbn [and_then]; [|reflexivity].
  destruct (Timedelta shift_back_days) as [delta|e];
    cbn [and_then]; reflexivity.
Qed.

Example epoch_day : mk_timestamp 1970 1 1 = 0.
Proof. reflexivity. Qed.

Example leap_day_2024 :
  mk_timestamp 2024 3 1 - mk_timestamp 2024 2 1 = 29 /\
  year_of (mk_timestamp 2024 2 29) = 2024 /\
  year_of (mk_timestamp 2023 12 31) = 2023 /\
  year_of (mk_timestamp 2024 1 1) = 2024.
Proof. repeat split. Qed.

Example year_of_month_bounds_1900_2100 :
  forallb
    (fun year =>
       forallb
         (fun month =>
            (year_of (mk_timestamp year month 1) =? year) &&
            (year_of (month_end year month) =? year) &&
            (weekday (month_end year month + 1)
               =? (weekday (month_end year month) + 1) mod 7))
         (py_range 1 13))
    (py_range 1900 2101) = true.
Proof. vm_compute. reflexivity. Qed.

Example september_2023_ends_on_saturday :
  weekday (month_end 2023 9) = 5 /\
  last_friday 2023 9 = mk_timestamp 2023 9 29 /\
  target_day 2023 9 18 = mk_timestamp 2023 9 11.
Proof. repeat split. Qed.

(** The candidates of one quarter month that the index holds, by year. *)
Definition month_group (index : list Timestamp) (shift_back_days : Z)
    (years : list Z) (quarter_month : Z) : list Timestamp :=
  filter (index_contains index)
    (map (fun year => target_day year quarter_month shift_back_days) years).

(** The first day of the month after [month] of [year]. *)
Definition next_month_first (year month : Z) : Timestamp :=
  if month =? 12 then mk_timestamp (year + 1) 1 1
  else mk_timestamp year (month + 1) 1.

(** *** The calendar *)

Lemma mk_timestamp_day (year month day : Z) :
  mk_timestamp year month day = mk_timestamp year month 1 + (day - 1).
Proof. unfold mk_timestamp; cbv zeta; lia. Qed.

Lemma month_end_civil (year month : Z) :
  month_end year month = mk_timestamp year month (days_in_month year month).
Proof. unfold month_end; now rewrite (mk_timestamp_day _ _ (days_in_month _ _)). Qed.

Lemma quarter_months_cases (m : Z) :
  In m quarter_months -> m = 3 \/ m = 6 \/ m = 9 \/ m = 12.
Proof. unfold quarter_months; simpl; intuition. Qed.

Lemma month_end_is_last_day (year month : Z) :
  In month quarter_months ->
  month_end year month + 1 = next_month_first year month.
Proof.
  intros Hm.
  destruct (quarter_months_cases _ Hm) as [->|[->|[->| ->]]];
    unfold month_end, next_month_first, mk_timestamp, days_in_month; simpl;
    Z.div_mod_to_equations; lia.
Qed.

Lemma weekday_range (ts : Timestamp) : 0 <= weekday ts < 7.
Proof. unfold weekday; apply Z.mod_pos_bound; lia. Qed.

Lemma last_friday_weekday (year month : Z) :
  weekday (last_friday year month) = 4.
Proof.
  unfold last_friday; cbv zeta.
  destruct (Z.eqb_spec (weekday (month_end year month)) 4) as [E|E]; [exact E|].
  unfold minus_week; cbv zeta.
  destruct (Z.eqb_spec (weekday (month_end year month)) 4) as [E'|_]; [contradiction|].
  unfold weekday in *.
  Z.div_mod_to_equations; lia.
Qed.

Lemma last_friday_bounds (year month : Z) :
  last_friday year month <= month_end year month < last_friday year month + 7.
Proof.
  unfold last_friday; cbv zeta.
  destruct (Z.eqb_spec (weekday (month_end year month)) 4) as [E|E]; [lia|].
  unfold minus_week; cbv zeta.
  destruct (Z.eqb_spec (weekday (month_end year month)) 4) as [E'|_]; [contradiction|].
  unfold weekday in *.
  Z.div_mod_to_equations; lia.
Qed.

Lemma last_friday_latest (year month : Z) (g : Timestamp) :
  weekday g = 4 -> g <= month_end year month -> g <= last_friday year month.
Proof.
  intros Hg Hle.
  pose proof (last_friday_weekday year month) as Hf.
  pose proof (last_friday_bounds year month) as Hb.
  unfold weekday in *.
  Z.div_mod_to_equations; lia.
Qed.

Lemma month_end_next_year (year month : Z) :
  In month quarter_months ->
  month_end year month + 365 <= month_end (year + 1) month.
Proof.
  intros Hm.
  destruct (quarter_months_cases _ Hm) as [->|[->|[->| ->]]];
    unfold month_end, mk_timestamp, days_in_month; simpl;
    Z.div_mod_to_equations; lia.
Qed.

Lemma target_day_next_year (year month shift : Z) :
  In month quarter_months ->
  target_day year month shift < target_day (year + 1) month shift.
Proof.
  intros Hm. unfold target_day.
  pose proof (month_end_next_year year month Hm).
  pose proof (last_friday_bounds year month).
  pose proof (last_friday_bounds (year + 1) month).
  lia.
Qed.

Lemma target_day_year_mono (month shift : Z) (n : nat) (year : Z) :
  In month quarter_months ->
  target_day year month shift < target_day (year + Z.of_nat (S n)) month shift.
Proof.
  intros Hm. induction n as [|n IH].
  - replace (year + Z.of_nat 1) with (year + 1) by lia.
    now apply target_day_next_year.
  - pose proof (target_day_next_year (year + Z.of_nat (S n)) month shift Hm).
    replace (year + Z.of_nat (S (S n))) with (year + Z.of_nat (S n) + 1) by lia.
    lia.
Qed.

(** *** The index and the year range *)

Lemma index_contains_In (index : list Timestamp) (ts : Timestamp) :
  index_contains index ts = true <-> In ts index.
Proof.
  unfold index_contains. rewrite existsb_exists. split.
  - intros [x [Hin Heq]]. apply Z.eqb_eq in Heq. now subst.
  - intros Hin. exists ts. split; [exact Hin | apply Z.eqb_refl].
Qed.

Lemma py_range_In (start stop y : Z) :
  In y (py_range start stop) <-> start <= y < stop.
Proof.
  unfold py_range. rewrite in_map_iff. split.
  - intros [i [<- Hi]]. apply in_seq in Hi. lia.
  - intros Hy. exists (Z.to_nat (y - start)). split; [lia|].
    apply in_seq. lia.
Qed.

Lemma fold_min_spec (ys : list Z) : forall y : Z,
  (fold_left Z.min ys y = y \/ In (fold_left Z.min ys y) ys) /\
  fold_left Z.min ys y <= y /\
  (forall z, In z ys -> fold_left Z.min ys y <= z).
Proof.
  induction ys as [|a ys IH]; intros y; simpl.
  - split; [now left|]. split; [lia|intros z []].
  - destruct (IH (Z.min y a)) as (Hin & Hle & Hall).
    split; [|split].
    + destruct Hin as [Heq|Hin]; [|now right; right].
      rewrite Heq. destruct (Z.min_spec y a) as [[_ ->]|[_ ->]]; auto.
    + lia.
    + intros z [<-|Hz]; [lia|now apply Hall].
Qed.

Lemma fold_max_spec (ys : list Z) : forall y : Z,
  (fold_left Z.max ys y = y \/ In (fold_left Z.max ys y) ys) /\
  y <= fold_left Z.max ys y /\
  (forall z, In z ys -> z <= fold_left Z.max ys y).
Proof.
  induction ys as [|a ys IH]; intros y; simpl.
  - split; [now left|]. split; [lia|intros z []].
  - destruct (IH (Z.max y a)) as (Hin & Hle & Hall).
    split; [|split].
    + destruct Hin as [Heq|Hin]; [|now right; right].
      rewrite Heq. destruct (Z.max_spec y a) as [[_ ->]|[_ ->]]; auto.
    + lia.
    + intros z [<-|Hz]; [lia|now apply Hall].
Qed.

(** On an index that is not empty the year bounds are the years of two of
    its entries. *)
Lemma year_bounds_nonempty (index : list Timestamp) :
  index <> [] ->
  exists lo hi first last,
    year_min index = Some lo /\ year_max index = Some hi /\
    In first index /\ year_of first = lo /\
    In last index /\ year_of last = hi.
Proof.
  destruct index as [|ts rest]; [congruence|]. intros _.
  unfold year_min, year_max. cbn [map].
  destruct (fold_min_spec (map year_of rest) (year_of ts)) as (Hmin & _).
  destruct (fold_max_spec (map year_of rest) (year_of ts)) as (Hmax & _).
  assert (Hfirst : exists first, In first (ts :: rest) /\
            year_of first = fold_left Z.min (map year_of rest) (year_of ts)).
  { destruct Hmin as [->|Hin]; [exists ts; split; [now left|reflexivity]|].
    apply in_map_iff in Hin. destruct Hin as (first & Hy & Hin).
    exists first. split; [now right|exact Hy]. }
  assert (Hlast : exists last, In last (ts :: rest) /\
            year_of last = fold_left Z.max (map year_of rest) (year_of ts)).
  { destruct Hmax as [->|Hin]; [exists ts; split; [now left|reflexivity]|].
    apply in_map_iff in Hin. destruct Hin as (last & Hy & Hin).
    exists last. split; [now right|exact Hy]. }
  destruct Hfirst as (first & Hfirst & Hlo).
  destruct Hlast as (last & Hlast & Hhi).
  exists (year_of first), (year_of last), first, last.
  rewrite Hlo, Hhi. auto 7.
Qed.

(** *** The loops *)

Lemma year_loop_app (index : list Timestamp) (shift : Z) (years : list Z)
    (month : Z) (dates : list Timestamp) :
  year_loop index shift years month dates =
  dates ++ month_group index shift years month.
Proof.
  unfold year_loop, month_group.
  revert dates. induction years as [|y years IH]; intros dates; simpl.
  - now rewrite app_nil_r.
  - destruct (index_contains index (target_day y month shift)); rewrite IH.
    + now rewrite <- app_assoc.
    + reflexivity.
Qed.

Lemma quarter_loop_groups (index : list Timestamp) (shift : Z) (years : list Z) :
  quarter_loop index shift years =
  month_group index shift years 3 ++ month_group index shift years 6 ++
  month_group index shift years 9 ++ month_group index shift years 12.
Proof.
  unfold quarter_loop, quarter_months; simpl.
  rewrite !year_loop_app; simpl. now rewrite <- !app_assoc.
Qed.

Lemma month_group_In (index : list Timestamp) (shift : Z) (years : list Z)
    (month : Z) (ts : Timestamp) :
  In ts (month_group index shift years month) <->
  In ts index /\ exists year, In year years /\ ts = target_day year month shift.
Proof.
  unfold month_group. rewrite filter_In, in_map_iff, index_contains_In.
  split.
  - intros [[y [Hy Hin]] Hidx]. split; [exact Hidx|]. now exists y.
  - intros [Hidx [y [Hin ->]]]. split; [|exact Hidx]. now exists y.
Qed.

Lemma quarter_loop_In (index : list Timestamp) (shift : Z) (years : list Z)
    (ts : Timestamp) :
  In ts (quarter_loop index shift years) <->
  In ts index /\
  exists month year,
    In month quarter_months /\ In year years /\ ts = target_day year month shift.
Proof.
  rewrite quarter_loop_groups, !in_app_iff, !month_group_In.
  unfold quarter_months; simpl. split.
  - intros [[H [y Hy]]|[[H [y Hy]]|[[H [y Hy]]|[H [y Hy]]]]];
      (split; [exact H|]);
      [exists 3, y | exists 6, y | exists 9, y | exists 12, y]; intuition.
  - intros [H [m [y [Hm Hy]]]].
    destruct Hm as [<-|[<-|[<-|[<-|[]]]]]; eauto 7.
Qed.

(** Dates in ascending order. *)
Definition chronological (dates : list Timestamp) : Prop :=
  StronglySorted Z.lt dates.

Lemma chronological_filter (keep : Timestamp -> bool) (dates : list Timestamp) :
  chronological dates -> chronological (filter keep dates).
Proof.
  unfold chronological. induction 1 as [|d dates Hs IH Hall]; simpl.
  - constructor.
  - destruct (keep d); [|exact IH].
    constructor; [exact IH|].
    rewrite Forall_forall in *. intros x Hx.
    apply filter_In in Hx. now apply Hall.
Qed.

Lemma targets_chronological (month shift : Z) (n : nat) (start : Z) :
  In month quarter_months ->
  chronological
    (map (fun i => target_day (start + Z.of_nat i) month shift) (seq 0 n)).
Proof.
  intros Hm. unfold chronological.
  revert start. induction n as [|n IH]; intros start; simpl.
  - constructor.
  - constructor.
    + rewrite <- seq_shift, map_map.
      erewrite map_ext; [apply (IH (start + 1))|].
      intros i; simpl. f_equal. lia.
    + rewrite Forall_forall. intros ts Hts.
      apply in_map_iff in Hts.
      destruct Hts as [i [<- Hi]]. apply in_seq in Hi.
      destruct i as [|i]; [lia|].
      rewrite Z.add_0_r. now apply target_day_year_mono.
Qed.

Lemma month_group_chronological (index : list Timestamp) (shift lo hi month : Z) :
  In month quarter_months ->
  chronological (month_group index shift (py_range lo hi) month).
Proof.
  intros Hm. unfold month_group, py_range.
  apply chronological_filter. rewrite map_map.
  now apply targets_chronological.
Qed.

(** *** Dates in and out of bounds *)

Lemma max_days_value : max_days = 106751.
Proof. reflexivity. Qed.

Lemma in_bounds_iff (days : Z) :
  in_bounds days = true <-> - max_days <= days <= max_days.
Proof. unfold in_bounds. rewrite andb_true_iff, !Z.leb_le. tauto. Qed.

Lemma checked_returns (days : Z) (ts : Timestamp) :
  checked days = Returns ts -> ts = days /\ - max_days <= days <= max_days.
Proof.
  unfold checked. destruct (in_bounds days) eqn:E; [|discriminate].
  intros [= <-]. split; [reflexivity|now apply in_bounds_iff].
Qed.

Lemma checked_in_bounds (days : Z) :
  - max_days <= days <= max_days -> checked days = Returns days.
Proof. intros H. unfold checked. now rewrite (proj2 (in_bounds_iff days) H). Qed.

Lemma sub_week_returns (ts : Timestamp) (wd : Z) (r : Timestamp) :
  sub_week ts wd = Returns r -> r = minus_week ts wd.
Proof.
  unfold sub_week, minus_week; cbv zeta.
  destruct (weekday ts =? wd); cbn [and_then].
  - intros H. now apply checked_returns in H.
  - destruct (checked (ts + (wd - weekday ts) mod 7)) as [other|e] eqn:E;
      cbn [and_then]; [|discriminate].
    apply checked_returns in E. destruct E as [-> _].
    intros H. now apply checked_returns in H.
Qed.

Lemma sub_week_in_bounds (ts : Timestamp) (wd : Z) :
  - max_days + 7 <= ts -> ts + 6 <= max_days ->
  sub_week ts wd = Returns (minus_week ts wd).
Proof.
  intros Hlo Hhi. unfold sub_week, minus_week; cbv zeta.
  pose proof (Z.mod_pos_bound (wd - weekday ts) 7 ltac:(lia)) as Hmod.
  destruct (weekday ts =? wd); cbn [and_then].
  - apply checked_in_bounds. lia.
  - rewrite checked_in_bounds by lia. cbn [and_then].
    apply checked_in_bounds. lia.
Qed.

(** When the candidate is formed, it is [target_day]. *)
Lemma candidate_returns (year month shift : Z) (ts : Timestamp) :
  candidate year month shift = Returns ts ->
  ts = target_day year month shift /\
  - max_days <= shift <= max_days /\
  - max_days <= target_day year month shift <= max_days.
Proof.
  unfold candidate, target_day, last_friday, month_end; cbv zeta.
  destruct (checked (mk_timestamp year month 1)) as [first|e] eqn:E1;
    cbn [and_then]; [|discriminate].
  apply checked_returns in E1. destruct E1 as [-> _].
  destruct (checked (mk_timestamp year month 1 + (days_in_month year month - 1)))
    as [last_day|e] eqn:E2; cbn [and_then]; [|discriminate].
  apply checked_returns in E2. destruct E2 as [-> _].
  set (last_day := mk_timestamp year month 1 + (days_in_month year month - 1)).
  match goal with
  | |- and_then ?m _ = _ -> _ =>
      assert (Hfriday :
        forall lf, m = Returns lf ->
          lf = (if weekday last_day =? 4 then last_day
                else minus_week last_day 4));
      [|destruct m as [lf|e]; cbn [and_then]; [|discriminate]]
  end.
  { intros lf. destruct (weekday last_day =? 4).
    - now intros [= <-].
    - apply sub_week_returns. }
  rewrite <- (Hfriday lf eq_refl).
  unfold Timedelta. destruct (in_bounds shift) eqn:E3; cbn [and_then]; [|discriminate].
  apply in_bounds_iff in E3.
  intros H. apply checked_returns in H. destruct H as [-> Hb].
  auto.
Qed.

(** The month ends of the years 1678 to 2261, and the week around each,
    are in bounds. *)
Lemma quarter_dates_in_bounds (year month : Z) :
  1678 <= year <= 2261 -> In month quarter_months ->
  - max_days <= mk_timestamp year month 1 /\
  mk_timestamp year month 1 + 7 <= month_end year month /\
  month_end year month + 6 <= max_days.
Proof.
  intros Hy Hm. rewrite max_days_value.
  destruct (quarter_months_cases _ Hm) as [->|[->|[->| ->]]];
    unfold month_end, mk_timestamp, days_in_month; simpl;
    Z.div_mod_to_equations; lia.
Qed.

Lemma candidate_in_bounds (year month shift : Z) :
  1678 <= year <= 2261 -> In month quarter_months ->
  - max_days <= shift <= max_days ->
  - max_days <= target_day year month shift <= max_days ->
  candidate year month shift = Returns (target_day year month shift).
Proof.
  intros Hy Hm Hshift Htarget.
  destruct (quarter_dates_in_bounds year month Hy Hm) as (Hfirst & Hlen & Hend).
  unfold candidate, target_day, last_friday in *; cbv zeta in *.
  unfold month_end in *.
  rewrite checked_in_bounds by lia. cbn [and_then].
  rewrite checked_in_bounds by lia. cbn [and_then].
  set (last_day := mk_timestamp year month 1 + (days_in_month year month - 1)) in *.
  destruct (weekday last_day =? 4); cbn [and_then].
  - unfold Timedelta. rewrite (proj2 (in_bounds_iff shift) Hshift).
    cbn [and_then]. now apply checked_in_bounds.
  - rewrite sub_week_in_bounds by lia. cbn [and_then].
    unfold Timedelta. rewrite (proj2 (in_bounds_iff shift) Hshift).
    cbn [and_then]. now apply checked_in_bounds.
Qed.

(** *** The loops, when they finish *)

Lemma year_steps_return (index : list Timestamp) (shift month : Z)
    (years : list Z) : forall (dates out : list Timestamp),
  for_each years (year_step index shift month) dates = Returns out ->
  out = year_loop index shift years month dates.
Proof.
  unfold year_loop.
  induction years as [|year years IH]; intros dates out;
    cbn [for_each fold_left].
  - now intros [= <-].
  - unfold year_step at 1.
    destruct (candidate year month shift) as [ts|e] eqn:E; cbn [and_then]; [|discriminate].
    apply candidate_returns in E. destruct E as (-> & _).
    destruct (index_contains index (target_day year month shift));
      cbn [and_then]; apply IH.
Qed.

Lemma year_steps_in_bounds (index : list Timestamp) (shift month : Z)
    (years : list Z) : forall dates : list Timestamp,
  (forall year, In year years ->
     candidate year month shift = Returns (target_day year month shift)) ->
  for_each years (year_step index shift month) dates =
  Returns (year_loop index shift years month dates).
Proof.
  unfold year_loop.
  induction years as [|year years IH]; intros dates Hall;
    cbn [for_each fold_left].
  - reflexivity.
  - unfold year_step at 1. rewrite (Hall year) by now left. cbn [and_then].
    destruct (index_contains index (target_day year month shift));
      cbn [and_then]; apply IH; intros y Hy; apply Hall; now right.
Qed.

Lemma calculate_quarterly_dates_returns (index : list Timestamp) (shift : Z)
    (out : list Timestamp) :
  calculate_quarterly_dates index shift = Returns out ->
  exists lo hi,
    year_min index = Some lo /\ year_max index = Some hi /\
    out = quarter_loop index shift (py_range lo (hi + 1)).
Proof.
  rewrite calculate_quarterly_dates_eq.
  destruct (year_min index) as [lo|]; [|discriminate].
  destruct (year_max index) as [hi|]; [|discriminate].
  intros H. exists lo, hi. split; [reflexivity|]. split; [reflexivity|].
  unfold quarter_months, quarter_loop in *. cbn [for_each fold_left] in *.
  repeat match type of H with
         | and_then ?m _ = Returns _ =>
             let E := fresh "E" in
             destruct m as [?dates|?e] eqn:E; [|discriminate H];
             apply year_steps_return in E; subst; cbn [and_then] in H
         end.
  now injection H as <-.
Qed.

Lemma calculate_quarterly_dates_in_bounds (index : list Timestamp)
    (shift lo hi : Z) :
  year_min index = Some lo -> year_max index = Some hi ->
  (forall year month, lo <= year <= hi -> In month quarter_months ->
     candidate year month shift = Returns (target_day year month shift)) ->
  calculate_quarterly_dates index shift =
  Returns (quarter_loop index shift (py_range lo (hi + 1))).
Proof.
  intros Hlo Hhi Hall.
  rewrite calculate_quarterly_dates_eq, Hlo, Hhi.
  assert (Hmonth : forall month dates, In month quarter_months ->
            for_each (py_range lo (hi + 1)) (year_step index shift month) dates
            = Returns (year_loop index shift (py_range lo (hi + 1)) month dates)).
  { intros month dates Hm. apply year_steps_in_bounds.
    intros year Hy. apply py_range_In in Hy. apply Hall; [lia|exact Hm]. }
  unfold quarter_loop, quarter_months in *. cbn [for_each fold_left].
  rewrite !Hmonth by (simpl; auto 6); cbn [and_then].
  rewrite !Hmonth by (simpl; auto 6); cbn [and_then].
  rewrite !Hmonth by (simpl; auto 6); cbn [and_then].
  rewrite !Hmonth by (simpl; auto 6); cbn [and_then].
  reflexivity.
Qed.

(** *** The claims *)

(** C6: for a year of the index's year range and a quarter-ending month,
    the candidate is the latest Friday on or before the last calendar day
    of the month (that day itself when it is a Friday) minus
    [shift_back_days]; it is in the output exactly when it is in the index.
    The output holds nothing else: a date is in it exactly when it is in
    the index and is the candidate of some year of the range and some
    quarter-ending month. *)
Theorem quarterly_anchor_candidate (index : list Timestamp)
    (shift lo hi year month : Z) (out : list Timestamp) :
  calculate_quarterly_dates index shift = Returns out ->
  year_min index = Some lo ->
  year_max index = Some hi ->
  lo <= year <= hi ->
  In month quarter_months ->
  month_end year month = mk_timestamp year month (days_in_month year month) /\
  month_end year month + 1 = next_month_first year month /\
  weekday (last_friday year month) = 4 /\
  last_friday year month <= month_end year month /\
  (weekday (month_end year month) = 4 ->
   last_friday year month = month_end year month) /\
  (forall g, weekday g = 4 -> g <= month_end year month ->
             g <= last_friday year month) /\
  target_day year month shift = last_friday year month - shift /\
  (In (target_day year month shift) out <->
   In (target_day year month shift) index) /\
  (forall date,
     In date out <->
     In date index /\
     exists month' year',
       In month' quarter_months /\ lo <= year' <= hi /\
       date = target_day year' month' shift).
Proof.
  intros Hout Hlo Hhi Hy Hm.
  destruct (calculate_quarterly_dates_returns _ _ _ Hout)
    as [lo' [hi' [Hlo' [Hhi' ->]]]].
  rewrite Hlo in Hlo'. rewrite Hhi in Hhi'.
  injection Hlo' as <-. injection Hhi' as <-.
  split; [apply month_end_civil|].
  split; [now apply month_end_is_last_day|].
  split; [apply last_friday_weekday|].
  split; [apply last_friday_bounds|].
  split.
  { intros Hfri. unfold last_friday; cbv zeta.
    now rewrite Hfri. }
  split; [intros g; apply last_friday_latest|].
  split; [reflexivity|].
  split.
  - rewrite quarter_loop_In. split.
    + now intros [Hin _].
    + intros Hin. split; [exact Hin|].
      exists month, year. split; [exact Hm|]. split; [|reflexivity].
      apply py_range_In. lia.
  - intros date. rewrite quarter_loop_In. split.
    + intros [Hin [m [y [Hm' [Hy' ->]]]]]. split; [exact Hin|].
      exists m, y. apply py_range_In in Hy'.
      split; [exact Hm'|]. split; [lia|reflexivity].
    + intros [Hin [m [y [Hm' [Hy' ->]]]]]. split; [exact Hin|].
      exists m, y. split; [exact Hm'|]. split; [|reflexivity].
      apply py_range_In. lia.
Qed.

Lemma quarterly_anchor_candidate_witness :
  calculate_quarterly_dates [mk_timestamp 2023 6 12; mk_timestamp 2023 6 13] 18
    = Returns [mk_timestamp 2023 6 12] /\
  weekday (last_friday 2023 6) = 4 /\
  target_day 2023 6 18 = last_friday 2023 6 - 18 /\
  (In (target_day 2023 6 18) [mk_timestamp 2023 6 12] <->
   In (target_day 2023 6 18) [mk_timestamp 2023 6 12; mk_timestamp 2023 6 13]) /\
  (forall date,
     In date [mk_timestamp 2023 6 12] <->
     In date [mk_timestamp 2023 6 12; mk_timestamp 2023 6 13] /\
     exists month' year',
       In month' quarter_months /\ 2023 <= year' <= 2023 /\
       date = target_day year' month' 18).
Proof.
  assert (Hout : calculate_quarterly_dates
                   [mk_timestamp 2023 6 12; mk_timestamp 2023 6 13] 18
                 = Returns [mk_timestamp 2023 6 12]) by reflexivity.
  assert (Hlo : year_min [mk_timestamp 2023 6 12; mk_timestamp 2023 6 13]
                = Some 2023) by reflexivity.
  assert (Hhi : year_max [mk_timestamp 2023 6 12; mk_timestamp 2023 6 13]
                = Some 2023) by reflexivity.
  assert (Hy : 2023 <= 2023 <= 2023) by lia.
  assert (Hm : In 6 quarter_months) by (simpl; auto).
  destruct (quarterly_anchor_candidate _ 18 2023 2023 2023 6 _ Hout Hlo Hhi Hy Hm)
    as (_ & _ & Hfri & _ & _ & _ & Htarget & Hiff & Honly).
  exact (conj Hout (conj Hfri (conj Htarget (conj Hiff Honly)))).
Defined.

(** C7: with the index {2023-06-12} and a shift of 18 days the result is
    exactly [2023-06-12]: June 30, 2023 is a Friday, and 18 days earlier is
    June 12. *)
Theorem quarterly_dates_june_2023 :
  calculate_quarterly_dates [mk_timestamp 2023 6 12] 18
    = Returns [mk_timestamp 2023 6 12] /\
  month_end 2023 6 = mk_timestamp 2023 6 30 /\
  weekday (mk_timestamp 2023 6 30) = 4 /\
  target_day 2023 6 18 = mk_timestamp 2023 6 12.
Proof. repeat split. Qed.

(** C8: the output is the March group, then the June, September and
    December groups, each in ascending year order; the whole need not be
    chronological. *)
Theorem quarterly_output_grouped_by_month :
  (forall (index : list Timestamp) (shift : Z) (out : list Timestamp),
     calculate_quarterly_dates index shift = Returns out ->
     exists lo hi,
       year_min index = Some lo /\ year_max index = Some hi /\
       out = month_group index shift (py_range lo (hi + 1)) 3 ++
             month_group index shift (py_range lo (hi + 1)) 6 ++
             month_group index shift (py_range lo (hi + 1)) 9 ++
             month_group index shift (py_range lo (hi + 1)) 12 /\
       forall month, In month quarter_months ->
         chronological (month_group index shift (py_range lo (hi + 1)) month)) /\
  (exists (index : list Timestamp) (shift : Z) (out : list Timestamp),
     calculate_quarterly_dates index shift = Returns out /\
     ~ chronological out).
Proof.
  split.
  - intros index shift out Hout.
    destruct (calculate_quarterly_dates_returns _ _ _ Hout)
      as [lo [hi [Hlo [Hhi ->]]]].
    exists lo, hi. repeat split; try assumption.
    + apply quarter_loop_groups.
    + intros month Hm. now apply month_group_chronological.
  - exists [mk_timestamp 2023 6 12; mk_timestamp 2024 3 11], 18,
           [mk_timestamp 2024 3 11; mk_timestamp 2023 6 12].
    split; [reflexivity|].
    unfold chronological. intros Hs.
    apply StronglySorted_inv in Hs. destruct Hs as [_ Hall].
    apply Forall_inv in Hall. vm_compute in Hall. discriminate.
Qed.

Lemma quarterly_output_grouped_by_month_witness :
  exists lo hi,
    year_min [mk_timestamp 2023 6 12; mk_timestamp 2024 3 11] = Some lo /\
    year_max [mk_timestamp 2023 6 12; mk_timestamp 2024 3 11] = Some hi /\
    [mk_timestamp 2024 3 11; mk_timestamp 2023 6 12] =
      month_group [mk_timestamp 2023 6 12; mk_timestamp 2024 3 11] 18
        (py_range lo (hi + 1)) 3 ++
      month_group [mk_timestamp 2023 6 12; mk_timestamp 2024 3 11] 18
        (py_range lo (hi + 1)) 6 ++
      month_group [mk_timestamp 2023 6 12; mk_timestamp 2024 3 11] 18
        (py_range lo (hi + 1)) 9 ++
      month_group [mk_timestamp 2023 6 12; mk_timestamp 2024 3 11] 18
        (py_range lo (hi + 1)) 12.
Proof.
  destruct (proj1 quarterly_output_grouped_by_month
              [mk_timestamp 2023 6 12; mk_timestamp 2024 3 11] 18
              [mk_timestamp 2024 3 11; mk_timestamp 2023 6 12] eq_refl)
    as [lo [hi [Hlo [Hhi [Hout _]]]]].
  exists lo, hi. exact (conj Hlo (conj Hhi Hout)).
Defined.

(** C9, as the code has it: on an empty index the year bounds are
    undefined and the call raises instead of returning an empty sequence. *)
Lemma quarterly_dates_empty_index_raises :
  calculate_quarterly_dates [] 18 = Raises TypeError /\
  calculate_quarterly_dates [] 18 <> Returns [].
Proof. split; [reflexivity | discriminate]. Qed.

(** Other calls that raise: a shift that no [Timedelta] holds, a candidate
    beyond the last [Timestamp], and an index that reaches into 2262, whose
    June has no [Timestamp]. *)
Lemma quarterly_dates_overflow_raises :
  calculate_quarterly_dates [mk_timestamp 2023 6 12] (10 ^ 9)
    = Raises OutOfBoundsTimedelta /\
  calculate_quarterly_dates [mk_timestamp 2023 6 12] (-100000)
    = Raises OutOfBoundsDatetime /\
  calculate_quarterly_dates [mk_timestamp 2262 1 3] 18
    = Raises OutOfBoundsDatetime.
Proof. repeat split. Qed.

(** C9, amended: the call returns a sequence, without error, on an index
    that is not empty and lies in the years 1678 to 2261, when
    [shift_back_days] is a number of days a [Timedelta] holds and every
    candidate of the index's year range is a date a [Timestamp] holds; the
    sequence is empty when the index holds no candidate. *)
Theorem quarterly_dates_total_on_nonempty (index : list Timestamp) (shift : Z) :
  index <> [] ->
  (forall ts, In ts index -> 1678 <= year_of ts <= 2261) ->
  - max_days <= shift <= max_days ->
  (forall first last year month,
     In first index -> In last index ->
     year_of first <= year <= year_of last ->
     In month quarter_months ->
     - max_days <= target_day year month shift <= max_days) ->
  exists out,
    calculate_quarterly_dates index shift = Returns out /\
    ((forall year month, In month quarter_months ->
                         ~ In (target_day year month shift) index) ->
     out = []).
Proof.
  intros Hne Hyears Hshift Htargets.
  destruct (year_bounds_nonempty index Hne)
    as (lo & hi & first & last & Hlo & Hhi & Hfirst & Hflo & Hlast & Hlhi).
  pose proof (Hyears first Hfirst) as Hfy.
  pose proof (Hyears last Hlast) as Hly.
  rewrite (calculate_quarterly_dates_in_bounds index shift lo hi Hlo Hhi).
  - eexists. split; [reflexivity|].
    intros Hnone.
    destruct (quarter_loop index shift (py_range lo (hi + 1))) as [|ts rest] eqn:E;
      [reflexivity|].
    assert (Hin : In ts (quarter_loop index shift (py_range lo (hi + 1))))
      by (rewrite E; now left).
    apply quarter_loop_In in Hin.
    destruct Hin as [Hidx [m [y [Hm [_ ->]]]]].
    exfalso. exact (Hnone y m Hm Hidx).
  - intros year month Hy Hm.
    apply candidate_in_bounds; [lia|exact Hm|exact Hshift|].
    apply (Htargets first last); [assumption|assumption|lia|exact Hm].
Qed.

Lemma quarterly_dates_total_on_nonempty_witness :
  [mk_timestamp 2023 6 13] <> [] /\
  - max_days <= 18 <= max_days /\
  calculate_quarterly_dates [mk_timestamp 2023 6 13] 18 = Returns [].
Proof.
  assert (Hne : [mk_timestamp 2023 6 13] <> []) by discriminate.
  assert (Hyears : forall ts, In ts [mk_timestamp 2023 6 13] ->
                     1678 <= year_of ts <= 2261).
  { intros ts [<-|[]]. vm_compute. split; discriminate. }
  assert (Hshift : - max_days <= 18 <= max_days) by (rewrite max_days_value; lia).
  assert (Htargets :
    forall first last year month,
      In first [mk_timestamp 2023 6 13] -> In last [mk_timestamp 2023 6 13] ->
      year_of first <= year <= year_of last ->
      In month quarter_months ->
      - max_days <= target_day year month 18 <= max_days).
  { intros first last year month [<-|[]] [<-|[]] Hy Hm.
    change (year_of (mk_timestamp 2023 6 13)) with 2023 in Hy.
    assert (year = 2023) as -> by lia.
    rewrite max_days_value.
    destruct (quarter_months_cases _ Hm) as [->|[->|[->| ->]]];
      vm_compute; split; discriminate. }
  destruct (quarterly_dates_total_on_nonempty [mk_timestamp 2023 6 13] 18
              Hne Hyears Hshift Htargets)
    as [out [Hout Hempty]].
  split; [exact Hne|]. split; [exact Hshift|].
  rewrite Hout. f_equal. apply Hempty.
  intros year month _ Hin.
  destruct Hin as [Hin|[]].
  pose proof (last_friday_weekday year month) as Hw.
  unfold target_day in Hin.
  replace (last_friday year month) with (mk_timestamp 2023 6 13 + 18) in Hw by lia.
  vm_compute in Hw. discriminate.
Defined.

End Quarterly.

(** ** adjust_limits *)

Module AxisLimits.

(** *** The arithmetic of Python floats

    What [adjust_limits] asks of its numbers.  [np.floor(np.log10(x))] is
    one operation, since [log10] alone has no exact value to return. *)
Class Arith (F : Type) : Type := {
  lit : Q -> F;               (* a decimal or integer literal *)
  fabs : F -> F;              (* abs(x) *)
  fmul : F -> F -> F;         (* x * y *)
  fdiv : F -> F -> F;         (* x / y *)
  fsub : F -> F -> F;         (* x - y *)
  fltb : F -> F -> bool;      (* x < y *)
  fleb : F -> F -> bool;      (* x <= y *)
  ffloor : F -> F;            (* np.floor(x) *)
  fceil : F -> F;             (* np.ceil(x) *)
  floor_log10 : F -> F;       (* np.floor(np.log10(x)) *)
  pow10 : F -> F              (* 10 ** x *)
}.

Section Generic.

Context {F : Type} {A : Arith F}.

(** The builtin [max(a, b)]: the later argument wins only when it is
    strictly greater. *)
Definition py_max (a b : F) : F := if fltb a b then b else a.

(** Line 178: the factors of the candidate steps. *)
Definition step_factors : list Q :=
  [0.005; 0.01; 0.025; 0.05; 0.1; 0.25; 0.5; 1; 2; 2.5]%Q.

(** Line 180: the test of one candidate. *)
Definition qualifies (span : F) (max_ticks : Z) (step_i : F) : bool :=
  fleb (fdiv span step_i) (lit (inject_Z max_ticks)).

(** Lines 179-182: the loop leaves [step] as it was unless a candidate
    qualifies, and stops at the first that does. *)
Fixpoint pick_step (candidates : list F) (span : F) (max_ticks : Z)
    (step : F) : F :=
  match candidates with
  | [] => step
  | step_i :: rest =>
      if qualifies span max_ticks step_i then step_i
      else pick_step rest span max_ticks step
  end.

(** [adjust_limits(y_min, y_max, max_ticks)], lines 160-187, statement by
    statement.  NumPy float operations warn on a zero divisor or an invalid
    argument and go on, so the call always returns. *)
Definition adjust_limits (y_min y_max : F) (max_ticks : Z) : outcome (F * F * F) :=
  let magnitude := pow10 (floor_log10 (py_max (fabs y_min) (fabs y_max))) in
  let step := fmul (lit 5) magnitude in
  let round_base := fdiv magnitude (lit 10) in
  let y_min_rounded := fmul (ffloor (fdiv y_min round_base)) round_base in
  let y_max_rounded := fmul (fceil (fdiv y_max round_base)) round_base in
  let step_candidates := map (fun k => fmul magnitude (lit k)) step_factors in
  let step :=
    pick_step step_candidates (fsub y_max_rounded y_min_rounded) max_ticks step in
  let y_min_rounded := fmul (ffloor (fdiv y_min step)) step in
  let y_max_rounded := fmul (fceil (fdiv y_max step)) step in
  Returns (y_min_rounded, y_max_rounded, step).

(** The intermediate values of [adjust_limits], by name. *)

(** Line 172. *)
Definition magnitude (y_min y_max : F) : F :=
  pow10 (floor_log10 (py_max (fabs y_min) (fabs y_max))).

(** Line 174. *)
Definition round_base (magnitude : F) : F := fdiv magnitude (lit 10).

(** Lines 175-176: the provisional bounds. *)
Definition provisional_min (y_min magnitude : F) : F :=
  fmul (ffloor (fdiv y_min (round_base magnitude))) (round_base magnitude).

Definition provisional_max (y_max magnitude : F) : F :=
  fmul (fceil (fdiv y_max (round_base magnitude))) (round_base magnitude).

(** Line 178. *)
Definition step_candidates (magnitude : F) : list F :=
  map (fun k => fmul magnitude (lit k)) step_factors.

(** Lines 173-182: the step the final rounding uses. *)
Definition chosen_step (y_min y_max : F) (max_ticks : Z) : F :=
  let magnitude := magnitude y_min y_max in
  pick_step (step_candidates magnitude)
            (fsub (provisional_max y_max magnitude)
                  (provisional_min y_min magnitude))
            max_ticks (fmul (lit 5) magnitude).

Lemma adjust_limits_eq (y_min y_max : F) (max_ticks : Z) :
  adjust_limits y_min y_max max_ticks =
  let step := chosen_step y_min y_max max_ticks in
  Returns (fmul (ffloor (fdiv y_min step)) step,
           fmul (fceil (fdiv y_max step)) step,
           step).
Proof. reflexivity. Qed.

End Generic.

(** *** Exact arithmetic: the rationals *)

(** floor(log10(n/d)) for n, d > 0. *)
Fixpoint log10_up (fuel : nat) (n d : Z) : Z :=
  match fuel with
  | O => 0
  | S fuel' => if 10 * d <=? n then 1 + log10_up fuel' n (10 * d) else 0
  end.

Fixpoint log10_down (fuel : nat) (n d : Z) : Z :=
  match fuel with
  | O => 1
  | S fuel' => if d <=? 10 * n then 1 else 1 + log10_down fuel' (10 * n) d
  end.

Definition Qlog10_floor (x : Q) : Z :=
  let n := Qnum x in
  let d := Zpos (Qden x) in
  if n <=? 0 then 0
  else if d <=? n then log10_up (Z.to_nat (Z.log2 n)) n d
  else - log10_down (Z.to_nat (Z.log2 d)) n d.

Example Qlog10_floor_values :
  map Qlog10_floor [1; 9.99; 10; 99; 100; 0.97; 0.1; 0.0999; 0.001]%Q
  = [0; 0; 1; 1; 2; -1; -1; -2; -3].
Proof. reflexivity. Qed.

(** The rationals as exact floats: the algorithm without rounding.
    Division by zero and the logarithm of a value that is not positive have
    no exact counterpart ([x / 0] is 0 in [Q]).  The instance states what
    the algorithm is designed to do, for [max(|y_min|, |y_max|) > 0]; what
    the code does is the binary64 instance below. *)
#[export] Instance Q_arith : Arith Q := {
  lit := fun q => q;
  fabs := Qabs;
  fmul := Qmult;
  fdiv := Qdiv;
  fsub := Qminus;
  fltb := fun x y => negb (Qle_bool y x);
  fleb := Qle_bool;
  ffloor := fun x => inject_Z (Qfloor x);
  fceil := fun x => inject_Z (Qceiling x);
  floor_log10 := fun x => inject_Z (Qlog10_floor x);
  pow10 := fun e => Qpower 10 (Qfloor e)
}.

(** *** Executed arithmetic: IEEE binary64

    The kernel's primitive floats give [*], [/], [-], [abs] and the
    comparisons bit for bit.  The other operations are computed from the
    exact value of their argument:
    - an integer or a literal is rounded to the nearest float;
    - [np.floor] and [np.ceil] are exact;
    - [np.log10(x)] is the logarithm rounded to the nearest float, so that
      [np.floor(np.log10(x))] is the integer [j] not only from [10 ^ j] on
      but already for the floats just below [10 ^ j] whose logarithm rounds
      to [j]; [log10(0) = -inf], and a negative argument gives NaN;
    - [10 ** e] for an integral [e] is the power rounded to the nearest
      float, with [10 ** -inf = 0].
    The C library behind NumPy computes [log10] and [pow] to within a unit
    in the last place of these, not always to the nearest float: at a
    float whose logarithm lies almost midway between two floats, and at
    [10 ** 23], the code can differ from the instance. *)

(** An integer, rounded to nearest (ties to even). *)
Definition b64_of_Z (z : Z) : float :=
  SF2Prim (binary_normalize prec emax z 0 false).

(** A literal [n/d]: the quotient of two exactly represented integers is
    the float nearest to it. *)
Definition b64_lit (q : Q) : float :=
  PrimFloat.div (b64_of_Z (Qnum q)) (b64_of_Z (Zpos (Qden q))).

(** The exact value of a finite float [m * 2^e]. *)
Definition dyadic (m : positive) (e : Z) : Q :=
  if 0 <=? e then inject_Z (Zpos m * 2 ^ e)
  else Zpos m # Z.to_pos (2 ^ (- e)).

Definition b64_floor (x : float) : float :=
  match Prim2SF x with
  | S754_finite s m e =>
      if 0 <=? e then x
      else b64_of_Z (Z.shiftr (if s then Zneg m else Zpos m) (- e))
  | _ => x
  end.

Definition b64_ceil (x : float) : float :=
  PrimFloat.opp (b64_floor (PrimFloat.opp x)).

(** A lower bound of [ln 10], to 39 decimals. *)
Definition ln10_lower : Q :=
  2302585092994045684017991454684364207601
  # 1000000000000000000000000000000000000000.

(** Half the distance from the integer [j], not 0, to the float next to it
    on the side of 0. *)
Definition half_gap_below (j : Z) : Q :=
  if 0 <? j then Qpower 2 (Z.log2_up j - 54)
  else Qpower 2 (Z.log2 (- j) - 53).

(** For [x < 10 ^ j]: the logarithm of [x] rounds to [j].  With [h] the
    half gap, this is [log10 x > j - h], that is
    [1 - x / 10 ^ j < 1 - exp (- c)] for [c = h * ln 10], and
    [c - c ^ 2 / 2] is the value of the right-hand side to a relative
    error below [c].  No float lies just below 0 at that distance. *)
Definition log10_rounds_to (x : Q) (j : Z) : bool :=
  if j =? 0 then false
  else
    let c := (half_gap_below j * ln10_lower)%Q in
    Qle_bool (1 - x / Qpower 10 j) (c - c * c / 2).

(** floor(fl(log10 x)) for [x > 0]. *)
Definition Qlog10_rounded_floor (x : Q) : Z :=
  let k := Qlog10_floor x in
  if log10_rounds_to x (k + 1) then k + 1 else k.

Definition b64_floor_log10 (x : float) : float :=
  match Prim2SF x with
  | S754_nan => PrimFloat.nan
  | S754_zero _ => PrimFloat.neg_infinity
  | S754_infinity false => PrimFloat.infinity
  | S754_infinity true => PrimFloat.nan
  | S754_finite true _ _ => PrimFloat.nan
  | S754_finite false m e => b64_of_Z (Qlog10_rounded_floor (dyadic m e))
  end.

(** The float nearest to [1 / z], for [z > 0]. *)
Definition b64_inverse_of_Z (z : Z) : float :=
  SF2Prim (SFdiv prec emax (S754_finite false 1 0)
                           (S754_finite false (Z.to_pos z) 0)).

Definition b64_pow10 (x : float) : float :=
  match Prim2SF x with
  | S754_nan => PrimFloat.nan
  | S754_zero _ => PrimFloat.one
  | S754_infinity false => PrimFloat.infinity
  | S754_infinity true => PrimFloat.zero
  | S754_finite s m e =>
      let z := Qfloor (dyadic m e) in
      if 400 <? z then (if s then PrimFloat.zero else PrimFloat.infinity)
      else if s then b64_inverse_of_Z (10 ^ z)
      else b64_of_Z (10 ^ z)
  end.

#[export] Instance b64_arith : Arith float := {
  lit := b64_lit;
  fabs := PrimFloat.abs;
  fmul := PrimFloat.mul;
  fdiv := PrimFloat.div;
  fsub := PrimFloat.sub;
  fltb := PrimFloat.ltb;
  fleb := PrimFloat.leb;
  ffloor := b64_floor;
  fceil := b64_ceil;
  floor_log10 := b64_floor_log10;
  pow10 := b64_pow10
}.

Example b64_tenth_is_inexact :
  PrimFloat.eqb (PrimFloat.mul (b64_lit 3) (b64_lit 0.1)) (b64_lit 0.3) = false /\
  PrimFloat.ltb (b64_lit 0.3) (PrimFloat.mul (b64_lit 3) (b64_lit 0.1)) = true.
Proof. vm_compute. repeat split. Qed.

Example b64_rounding_to_integers :
  b64_floor (b64_lit 4.4) = b64_lit 4 /\
  b64_ceil (b64_lit 14.4) = b64_lit 15 /\
  b64_floor (b64_lit (-1.8)) = b64_lit (-2) /\
  b64_ceil (b64_lit (-0.5)) = PrimFloat.neg_zero.
Proof. vm_compute. repeat split. Qed.

Example b64_magnitudes :
  b64_pow10 (b64_floor_log10 (b64_lit 0.97)) = b64_lit 0.1 /\
  b64_pow10 (b64_floor_log10 (b64_lit 36)) = b64_lit 10 /\
  b64_pow10 (b64_floor_log10 (b64_lit 123456)) = b64_lit 100000 /\
  b64_floor_log10 (b64_lit 0) = PrimFloat.neg_infinity /\
  b64_pow10 PrimFloat.neg_infinity = PrimFloat.zero.
Proof. vm_compute. repeat split. Qed.

(** Just below a power of ten.  999.9999999999999, the float next below
    1000, has a logarithm that rounds to 3: its magnitude is 1000, above
    the value itself.  999.9 has magnitude 100. *)
Example b64_magnitude_below_1000 :
  let x := 0x1.f3fffffffffffp+9%float in
  PrimFloat.ltb x (b64_lit 1000) = true /\
  b64_floor_log10 x = b64_lit 3 /\
  b64_pow10 (b64_floor_log10 x) = b64_lit 1000 /\
  b64_floor_log10 (b64_lit 999.9) = b64_lit 2 /\
  Qlog10_floor 999.9 = 2.
Proof. vm_compute. repeat split. Qed.

(** Negative powers of ten are rounded once: [10 ** -23] is the float
    nearest to it, one unit in the last place below [1 / 1e23]. *)
Example b64_pow10_minus_23 :
  b64_pow10 (b64_lit (-23)) = 0x1.82db34012b251p-77%float /\
  PrimFloat.div PrimFloat.one (b64_of_Z (10 ^ 23)) = 0x1.82db34012b252p-77%float /\
  b64_pow10 (b64_lit (-1)) = b64_lit 0.1 /\
  b64_pow10 (b64_lit (-324)) = PrimFloat.zero.
Proof. vm_compute. repeat split. Qed.

(** *** The step selection, in every arithmetic *)

Section Selection.

Context {F : Type} {A : Arith F}.

(** [c] is the first candidate of the list that passes the test. *)
Definition first_qualifying (span : F) (max_ticks : Z) (candidates : list F)
    (c : F) : Prop :=
  exists before after,
    candidates = before ++ c :: after /\
    qualifies span max_ticks c = true /\
    forall c', In c' before -> qualifies span max_ticks c' = false.

Definition none_qualifies (span : F) (max_ticks : Z) (candidates : list F) : Prop :=
  forall c, In c candidates -> qualifies span max_ticks c = false.

Lemma pick_step_spec (candidates : list F) (span : F) (max_ticks : Z) (step : F) :
  first_qualifying span max_ticks candidates
                   (pick_step candidates span max_ticks step) \/
  (none_qualifies span max_ticks candidates /\
   pick_step candidates span max_ticks step = step).
Proof.
  induction candidates as [|c rest IH]; simpl.
  - right. split; [intros c []|reflexivity].
  - destruct (qualifies span max_ticks c) eqn:Hc.
    + left. exists [], rest. split; [reflexivity|].
      split; [exact Hc|intros c' []].
    + destruct IH as [(before & after & Heq & Hq & Hbefore)|[Hnone Hstep]].
      * left. exists (c :: before), after. split; [simpl; now f_equal|].
        split; [exact Hq|].
        intros c' [<-|Hin]; [exact Hc|now apply Hbefore].
      * right. split; [|exact Hstep].
        intros c' [<-|Hin]; [exact Hc|now apply Hnone].
Qed.

Lemma pick_step_In (candidates : list F) (span : F) (max_ticks : Z) (step : F) :
  In (pick_step candidates span max_ticks step) candidates \/
  pick_step candidates span max_ticks step = step.
Proof.
  destruct (pick_step_spec candidates span max_ticks step)
    as [(before & after & Heq & _)|[_ Hstep]].
  - left. rewrite Heq at 2. apply in_elt.
  - now right.
Qed.

Lemma pick_step_qualifies (candidates : list F) (span : F) (max_ticks : Z)
    (step c : F) :
  In c candidates -> qualifies span max_ticks c = true ->
  qualifies span max_ticks (pick_step candidates span max_ticks step) = true.
Proof.
  intros Hin Hc.
  destruct (pick_step_spec candidates span max_ticks step)
    as [(before & after & _ & Hq & _)|[Hnone _]].
  - exact Hq.
  - rewrite (Hnone c Hin) in Hc. discriminate.
Qed.

End Selection.

(** *** The bounds, in exact arithmetic *)

Section Exact.

Local Open Scope Q_scope.

(** [Qlog10_floor] is the floor of the decimal logarithm. *)
Lemma pow2_le_pow10 (a : Z) : (0 <= a -> 2 ^ a <= 10 ^ a)%Z.
Proof. intros Ha. apply Z.pow_le_mono_l. lia. Qed.

Lemma log10_up_spec (fuel : nat) : forall n d : Z,
  (0 < d)%Z -> (d <= n)%Z -> (n < d * 10 ^ (Z.of_nat fuel + 1))%Z ->
  (0 <= log10_up fuel n d /\
   d * 10 ^ log10_up fuel n d <= n < d * 10 ^ (log10_up fuel n d + 1))%Z.
Proof.
  induction fuel as [|fuel IH]; intros n d Hd Hle Hlt.
  - simpl in *. lia.
  - cbn [log10_up].
    destruct (Z.leb_spec (10 * d) n) as [H10|H10].
    + destruct (IH n (10 * d)%Z) as [Hk [Hlo Hhi]]; [lia|lia| |].
      * replace (Z.of_nat (S fuel) + 1)%Z with (Z.succ (Z.of_nat fuel + 1)) in Hlt by lia.
        rewrite Z.pow_succ_r in Hlt by lia. lia.
      * set (k := log10_up fuel n (10 * d)) in *.
        replace (1 + k)%Z with (Z.succ k) by lia.
        replace (Z.succ k + 1)%Z with (Z.succ (k + 1)) by lia.
        rewrite !Z.pow_succ_r by lia. lia.
    + simpl. lia.
Qed.

Lemma log10_down_spec (fuel : nat) : forall n d : Z,
  (0 < n)%Z -> (n < d)%Z -> (d <= n * 10 ^ (Z.of_nat fuel + 1))%Z ->
  (1 <= log10_down fuel n d /\
   n * 10 ^ (log10_down fuel n d - 1) < d <= n * 10 ^ log10_down fuel n d)%Z.
Proof.
  induction fuel as [|fuel IH]; intros n d Hn Hlt Hle.
  - simpl in *. lia.
  - cbn [log10_down].
    destruct (Z.leb_spec d (10 * n)) as [H10|H10].
    + simpl. lia.
    + destruct (IH (10 * n)%Z d) as [Hj [Hlo Hhi]]; [lia|lia| |].
      * replace (Z.of_nat (S fuel) + 1)%Z with (Z.succ (Z.of_nat fuel + 1)) in Hle by lia.
        rewrite Z.pow_succ_r in Hle by lia. lia.
      * set (j := log10_down fuel (10 * n) d) in *.
        replace (1 + j - 1)%Z with (Z.succ (j - 1)) by lia.
        replace (1 + j)%Z with (Z.succ j) by lia.
        rewrite !Z.pow_succ_r by lia. lia.
Qed.

Lemma fuel_enough (n : Z) : (0 < n -> n < 10 ^ (Z.of_nat (Z.to_nat (Z.log2 n)) + 1))%Z.
Proof.
  intros Hn. pose proof (Z.log2_nonneg n) as Hnn. rewrite Z2Nat.id by lia.
  pose proof (Z.log2_spec n Hn) as [_ Hlt].
  pose proof (pow2_le_pow10 (Z.log2 n + 1)) as Hpow.
  replace (Z.succ (Z.log2 n)) with (Z.log2 n + 1)%Z in Hlt by lia. lia.
Qed.

Lemma Qpower10_nonneg (k : Z) : (0 <= k)%Z -> 10 ^ k == inject_Z (10 ^ k).
Proof. intros Hk. now rewrite Zpower_Qpower. Qed.

Lemma Qpower10_neg (j : Z) : (0 < j)%Z -> 10 ^ (- j) == 1 # Z.to_pos (10 ^ j).
Proof.
  intros Hj. rewrite Qpower_opp, Qpower10_nonneg by lia.
  assert (0 < 10 ^ j)%Z by (apply Z.pow_pos_nonneg; lia).
  destruct (10 ^ j)%Z eqn:E; try lia. reflexivity.
Qed.

Lemma Qlog10_floor_spec (x : Q) :
  0 < x -> 10 ^ Qlog10_floor x <= x /\ x < 10 ^ (Qlog10_floor x + 1).
Proof.
  destruct x as [n d]. unfold Qlt at 1; simpl. rewrite Z.mul_1_r. intros Hn.
  unfold Qlog10_floor; simpl.
  destruct (Z.leb_spec n 0) as [|_]; [lia|].
  destruct (Z.leb_spec (Z.pos d) n) as [Hdn|Hdn].
  - destruct (log10_up_spec (Z.to_nat (Z.log2 n)) n (Z.pos d)) as [Hk [Hlo Hhi]]; [lia|lia| |].
    { pose proof (fuel_enough n Hn). nia. }
    set (k := log10_up _ _ _) in *.
    rewrite !Qpower10_nonneg by lia.
    unfold Qle, Qlt; simpl. lia.
  - destruct (log10_down_spec (Z.to_nat (Z.log2 (Z.pos d))) n (Z.pos d)) as [Hj [Hlo Hhi]]; [lia|lia| |].
    { pose proof (fuel_enough (Z.pos d) ltac:(lia)). nia. }
    set (j := log10_down _ _ _) in *.
    assert (Hp : (0 < 10 ^ j)%Z) by (apply Z.pow_pos_nonneg; lia).
    assert (Hp' : (0 < 10 ^ (j - 1))%Z) by (apply Z.pow_pos_nonneg; lia).
    split.
    + rewrite Qpower10_neg by lia. unfold Qle; simpl.
      rewrite Z2Pos.id by lia. lia.
    + destruct (Z.eq_dec j 1) as [->|Hne].
      * simpl. unfold Qlt; simpl. lia.
      * replace (- j + 1)%Z with (- (j - 1))%Z by lia.
        rewrite Qpower10_neg by lia. unfold Qlt; simpl.
        rewrite Z2Pos.id by lia. lia.
Qed.

(** [max] of two rationals. *)
Lemma py_max_exact (a b : Q) :
  a <= py_max (A := Q_arith) a b /\ b <= py_max (A := Q_arith) a b /\
  (py_max (A := Q_arith) a b = a \/ py_max (A := Q_arith) a b = b).
Proof.
  unfold py_max; cbn.
  destruct (Qle_bool b a) eqn:E; cbn.
  - apply Qle_bool_iff in E. repeat split; auto using Qle_refl.
  - assert (~ b <= a) as Hn by (rewrite <- Qle_bool_iff, E; discriminate).
    apply Qnot_le_lt in Hn.
    repeat split; auto using Qle_refl, Qlt_le_weak.
Qed.

(** In exact arithmetic the magnitude is the power of ten [10 ^ e] with
    [10 ^ e <= max(|y_min|, |y_max|) < 10 ^ (e + 1)].  (Not so in binary64:
    see [b64_magnitude_below_1000].) *)
Lemma magnitude_spec (y_min y_max : Q) :
  0 < py_max (A := Q_arith) (Qabs y_min) (Qabs y_max) ->
  exists e : Z,
    magnitude (A := Q_arith) y_min y_max = 10 ^ e /\
    10 ^ e <= py_max (A := Q_arith) (Qabs y_min) (Qabs y_max) /\
    py_max (A := Q_arith) (Qabs y_min) (Qabs y_max) < 10 ^ (e + 1).
Proof.
  intros Hpos.
  exists (Qlog10_floor (py_max (A := Q_arith) (Qabs y_min) (Qabs y_max))).
  split.
  - unfold magnitude; cbn [pow10 floor_log10 Q_arith]. now rewrite Qfloor_Z.
  - now apply Qlog10_floor_spec.
Qed.

Lemma magnitude_spec_witness :
  0 < py_max (A := Q_arith) (Qabs 0.03) (Qabs 0.97) /\
  exists e : Z,
    magnitude (A := Q_arith) 0.03 0.97 = 10 ^ e /\
    10 ^ e <= py_max (A := Q_arith) (Qabs 0.03) (Qabs 0.97) /\
    py_max (A := Q_arith) (Qabs 0.03) (Qabs 0.97) < 10 ^ (e + 1).
Proof.
  assert (Hpos : 0 < py_max (A := Q_arith) (Qabs 0.03) (Qabs 0.97))
    by (vm_compute; reflexivity).
  exact (conj Hpos (magnitude_spec 0.03 0.97 Hpos)).
Defined.

Lemma magnitude_pos (y_min y_max : Q) : 0 < magnitude (A := Q_arith) y_min y_max.
Proof. unfold magnitude; cbn. now apply Qpower_0_lt. Qed.

Lemma step_candidates_pos (mag : Q) :
  0 < mag -> Forall (fun c => 0 < c) (step_candidates (A := Q_arith) mag).
Proof.
  intros Hmag. unfold step_candidates, step_factors; cbn.
  repeat constructor; now apply Qmult_lt_0_compat.
Qed.

Lemma chosen_step_pos (y_min y_max : Q) (max_ticks : Z) :
  0 < chosen_step (A := Q_arith) y_min y_max max_ticks.
Proof.
  unfold chosen_step; cbv zeta.
  pose proof (magnitude_pos y_min y_max) as Hmag.
  match goal with
  | |- 0 < pick_step ?cs ?span ?t ?d =>
      destruct (pick_step_In cs span t d) as [Hin| ->]
  end.
  - pose proof (step_candidates_pos _ Hmag) as Hall.
    rewrite Forall_forall in Hall. now apply Hall.
  - cbn. now apply Qmult_lt_0_compat.
Qed.

Lemma floor_multiple_le (x s : Q) : 0 < s -> inject_Z (Qfloor (x / s)) * s <= x.
Proof.
  intros Hs.
  apply Qle_trans with ((x / s) * s).
  - apply Qmult_le_compat_r; [apply Qfloor_le | now apply Qlt_le_weak].
  - rewrite Qmult_comm, Qmult_div_r; [apply Qle_refl|].
    intros E. rewrite E in Hs. discriminate.
Qed.

Lemma ceil_multiple_ge (x s : Q) : 0 < s -> x <= inject_Z (Qceiling (x / s)) * s.
Proof.
  intros Hs.
  apply Qle_trans with ((x / s) * s).
  - rewrite Qmult_comm, Qmult_div_r; [apply Qle_refl|].
    intros E. rewrite E in Hs. discriminate.
  - apply Qmult_le_compat_r; [apply Qle_ceiling | now apply Qlt_le_weak].
Qed.

(** The bounds as designed: in exact arithmetic the returned bounds enclose
    the input range and the step is positive.  What binary64 loses of this
    is lost to rounding alone. *)
Theorem adjust_limits_encloses_range_exact (low high : Q) (max_ticks : Z) :
  low <= high ->
  0 < py_max (A := Q_arith) (Qabs low) (Qabs high) ->
  exists y_min y_max step,
    adjust_limits (A := Q_arith) low high max_ticks = Returns (y_min, y_max, step) /\
    y_min <= low /\ high <= y_max /\ 0 < step.
Proof.
  intros _ _.
  pose proof (chosen_step_pos low high max_ticks) as Hstep.
  rewrite adjust_limits_eq; cbv zeta.
  do 3 eexists. split; [reflexivity|]. cbn [fmul fdiv ffloor fceil Q_arith].
  split; [now apply floor_multiple_le|].
  split; [now apply ceil_multiple_ge|exact Hstep].
Qed.

Lemma adjust_limits_encloses_range_exact_witness :
  0.03 <= 0.97 /\
  0 < py_max (A := Q_arith) (Qabs 0.03) (Qabs 0.97) /\
  exists y_min y_max step,
    adjust_limits (A := Q_arith) 0.03 0.97 10 = Returns (y_min, y_max, step) /\
    y_min <= 0.03 /\ 0.97 <= y_max /\ 0 < step.
Proof.
  assert (Hle : 0.03 <= 0.97) by (vm_compute; discriminate).
  assert (Hpos : 0 < py_max (A := Q_arith) (Qabs 0.03) (Qabs 0.97))
    by (vm_compute; reflexivity).
  exact (conj Hle (conj Hpos
           (adjust_limits_encloses_range_exact 0.03 0.97 10 Hle Hpos))).
Defined.

(** The tick count after the final rounding.  The test of line 180 sees the
    provisional bounds; rounding to the chosen step afterwards can add one
    step, and no more. *)
Lemma round_base_pos (mag : Q) : 0 < mag -> 0 < round_base (A := Q_arith) mag.
Proof.
  intros Hmag. unfold round_base; cbn.
  apply Qlt_shift_div_l; [reflexivity|]. lra.
Qed.

Lemma Qdiv_minus_distr (a b s : Q) : (a - b) / s == a / s - b / s.
Proof. unfold Qdiv. ring. Qed.

Lemma tick_count_exact (x y s : Q) :
  0 < s ->
  (inject_Z (Qceiling (y / s)) * s - inject_Z (Qfloor (x / s)) * s) / s
  == inject_Z (Qceiling (y / s) - Qfloor (x / s)).
Proof.
  intros Hs. unfold Zminus. rewrite inject_Z_plus, inject_Z_opp.
  field. intros E. rewrite E in Hs. discriminate.
Qed.

Lemma ceil_floor_gap (a b : Q) (t : Z) :
  a - b <= inject_Z t -> (Qceiling a - Qfloor b <= t + 1)%Z.
Proof.
  intros Hab.
  pose proof (Qceiling_lt a) as Hc. pose proof (Qlt_floor b) as Hf.
  assert (Hlt : inject_Z (Qceiling a - Qfloor b) < inject_Z (t + 2)).
  { unfold Zminus in *. rewrite !inject_Z_plus, ?inject_Z_opp in *.
    change (inject_Z 2) with 2. change (inject_Z 1) with 1 in *.
    lra. }
  rewrite <- Zlt_Qlt in Hlt. lia.
Qed.

Lemma provisional_span_covers (low high : Q) :
  let mag := magnitude (A := Q_arith) low high in
  high - low <=
  provisional_max (A := Q_arith) high mag - provisional_min (A := Q_arith) low mag.
Proof.
  intros mag.
  pose proof (magnitude_pos low high) as Hmag. fold mag in Hmag.
  pose proof (floor_multiple_le low _ (round_base_pos mag Hmag)) as Hlo.
  pose proof (ceil_multiple_ge high _ (round_base_pos mag Hmag)) as Hhi.
  unfold provisional_max, provisional_min; cbn [fmul fdiv ffloor fceil Q_arith].
  lra.
Qed.

(** In exact arithmetic, when some candidate passes the test on the
    provisional bounds, the returned bounds are at most [max_ticks + 1]
    steps apart.  (In binary64 the quotient can come out above
    [max_ticks + 1] by a rounding error.) *)
Lemma tick_count_within_one (low high : Q) (max_ticks : Z) :
  let mag := magnitude (A := Q_arith) low high in
  let span :=
    provisional_max (A := Q_arith) high mag - provisional_min (A := Q_arith) low mag in
  (exists c, In c (step_candidates (A := Q_arith) mag) /\
             qualifies (A := Q_arith) span max_ticks c = true) ->
  exists y_min y_max step,
    adjust_limits (A := Q_arith) low high max_ticks = Returns (y_min, y_max, step) /\
    (y_max - y_min) / step <= inject_Z (max_ticks + 1).
Proof.
  intros mag span [c [Hin Hc]].
  pose proof (chosen_step_pos low high max_ticks) as Hstep.
  assert (Hq : qualifies (A := Q_arith) span max_ticks
                 (chosen_step (A := Q_arith) low high max_ticks) = true).
  { unfold chosen_step; cbv zeta. now apply (pick_step_qualifies _ _ _ _ c). }
  rewrite adjust_limits_eq; cbv zeta.
  set (step := chosen_step (A := Q_arith) low high max_ticks) in *.
  do 3 eexists. split; [reflexivity|]. cbn [fmul fdiv ffloor fceil Q_arith].
  rewrite tick_count_exact by exact Hstep.
  rewrite <- Zle_Qle. apply ceil_floor_gap.
  unfold qualifies in Hq; cbn [fleb fdiv lit Q_arith] in Hq.
  apply Qle_bool_iff in Hq.
  rewrite <- Qdiv_minus_distr.
  apply Qle_trans with (span / step); [|exact Hq].
  unfold Qdiv. apply Qmult_le_compat_r; [apply provisional_span_covers|].
  apply Qlt_le_weak, Qinv_lt_0_compat, Hstep.
Qed.

Lemma tick_count_within_one_witness :
  (exists c,
     In c (step_candidates (A := Q_arith) (magnitude (A := Q_arith) 11 36)) /\
     qualifies (A := Q_arith)
       (provisional_max (A := Q_arith) 36 (magnitude (A := Q_arith) 11 36) -
        provisional_min (A := Q_arith) 11 (magnitude (A := Q_arith) 11 36))
       10 c = true) /\
  exists y_min y_max step,
    adjust_limits (A := Q_arith) 11 36 10 = Returns (y_min, y_max, step) /\
    (y_max - y_min) / step <= inject_Z (10 + 1).
Proof.
  assert (Hc : exists c,
     In c (step_candidates (A := Q_arith) (magnitude (A := Q_arith) 11 36)) /\
     qualifies (A := Q_arith)
       (provisional_max (A := Q_arith) 36 (magnitude (A := Q_arith) 11 36) -
        provisional_min (A := Q_arith) 11 (magnitude (A := Q_arith) 11 36))
       10 c = true).
  { exists (nth 5 (step_candidates (A := Q_arith) (magnitude (A := Q_arith) 11 36)) 0).
    split; [|vm_compute; reflexivity].
    apply nth_In. vm_compute. lia. }
  exact (conj Hc (tick_count_within_one 11 36 10 Hc)).
Defined.

(** The candidates ascend: the first that qualifies is the smallest. *)
Lemma step_candidates_ascending (mag : Q) :
  0 < mag -> StronglySorted Qlt (step_candidates (A := Q_arith) mag).
Proof.
  intros Hmag. unfold step_candidates, step_factors; cbn.
  repeat (constructor; [|repeat (constructor; [now apply Qmult_lt_l|]); constructor]).
  constructor.
Qed.

(** A result with its three numbers in lowest terms. *)
Definition reduced (r : outcome (Q * Q * Q)) : outcome (Q * Q * Q) :=
  match r with
  | Returns (y_min, y_max, step) => Returns (Qred y_min, Qred y_max, Qred step)
  | Raises e => Raises e
  end.

End Exact.

(** *** The claims *)

Section Claims.

(** C3, amended: the step is the first candidate of the list, in list
    order, that passes the test on the provisional bounds; when none does it
    is [5 * magnitude].  In exact arithmetic the list ascends, so the first
    is the smallest. *)
Theorem chosen_step_first_qualifying_or_default :
  (forall (F : Type) (A : Arith F) (y_min y_max : F) (max_ticks : Z),
     let mag := magnitude y_min y_max in
     let span := fsub (provisional_max y_max mag) (provisional_min y_min mag) in
     let step := chosen_step y_min y_max max_ticks in
     (exists lo hi, adjust_limits y_min y_max max_ticks = Returns (lo, hi, step)) /\
     (first_qualifying span max_ticks (step_candidates mag) step \/
      (none_qualifies span max_ticks (step_candidates mag) /\
       step = fmul (lit 5) mag))) /\
  (forall y_min y_max : Q,
     StronglySorted Qlt
       (step_candidates (A := Q_arith) (magnitude (A := Q_arith) y_min y_max))).
Proof.
  split.
  - intros F A y_min y_max max_ticks mag span step. split.
    + rewrite adjust_limits_eq; cbv zeta. eauto.
    + apply pick_step_spec.
  - intros y_min y_max. apply step_candidates_ascending, magnitude_pos.
Qed.

(** C3, as stated: for -9 .. 9 and five ticks no candidate qualifies and
    the step is 5 (five times the magnitude 1), not 2.5. *)
Lemma fallback_step_is_five_magnitudes :
  let low := b64_lit (-9) in
  let high := b64_lit 9 in
  let mag := magnitude (A := b64_arith) low high in
  let span := fsub (provisional_max high mag) (provisional_min low mag) in
  mag = b64_lit 1 /\
  existsb (qualifies span 5) (step_candidates mag) = false /\
  adjust_limits low high 5 = Returns (b64_lit (-10), b64_lit 10, b64_lit 5) /\
  fmul mag (b64_lit 2.5) = b64_lit 2.5 /\
  PrimFloat.eqb (chosen_step low high 5) (fmul mag (b64_lit 2.5)) = false /\
  reduced (adjust_limits (A := Q_arith) (-9)%Q 9%Q 5) = Returns (-10, 10, 5)%Q.
Proof. vm_compute. repeat split. Qed.

(** C1, at 11 .. 36 with ten ticks: the candidate 2.5 passes the test on
    the provisional bounds 11 and 36, and the final bounds 10 and 37.5 are
    eleven steps apart. *)
Theorem tick_ceiling_exceeded_after_rounding :
  let low := b64_lit 11 in
  let high := b64_lit 36 in
  let mag := magnitude (A := b64_arith) low high in
  let span := fsub (provisional_max high mag) (provisional_min low mag) in
  PrimFloat.leb low high = true /\
  existsb (qualifies span 10) (step_candidates mag) = true /\
  adjust_limits low high 10 = Returns (b64_lit 10, b64_lit 37.5, b64_lit 2.5) /\
  fdiv (fsub (b64_lit 37.5) (b64_lit 10)) (b64_lit 2.5) = b64_lit 11 /\
  fleb (b64_lit 11) (lit (inject_Z 10)) = false /\
  reduced (adjust_limits (A := Q_arith) 11%Q 36%Q 10) = Returns (10, 75 # 2, 5 # 2)%Q.
Proof. vm_compute. repeat split. Qed.

(** C2, as the code has it: at 27.7 .. 28 the step is 0.1, the quotient
    27.7 / 0.1 is 277, and the binary64 product 277 * 0.1 lies above 27.7:
    the returned minimum is greater than the input low. *)
Lemma rounded_minimum_above_low :
  let low := b64_lit 27.7 in
  let high := b64_lit 28 in
  PrimFloat.leb low high = true /\
  PrimFloat.ltb PrimFloat.zero (py_max (fabs low) (fabs high)) = true /\
  exists y_min,
    adjust_limits (A := b64_arith) low high 10
      = Returns (y_min, b64_lit 28, b64_lit 0.1) /\
    PrimFloat.leb y_min low = false /\
    PrimFloat.ltb low y_min = true.
Proof.
  cbv zeta. split; [vm_compute; reflexivity|].
  split; [vm_compute; reflexivity|].
  eexists. split; [vm_compute; reflexivity|].
  split; vm_compute; reflexivity.
Qed.

(** C4, as stated: for 0.03 .. 0.97 the step is 0.1, not 0.025. *)
Lemma unit_interval_step_not_0025 :
  exists y_min y_max step,
    adjust_limits (A := b64_arith) (b64_lit 0.03) (b64_lit 0.97) 10
      = Returns (y_min, y_max, step) /\
    PrimFloat.eqb step (b64_lit 0.025) = false /\
    step <> b64_lit 0.025.
Proof.
  do 3 eexists. split; [vm_compute; reflexivity|].
  split; [vm_compute; reflexivity|].
  vm_compute. discriminate.
Qed.

(** C4, amended: for 0.03 .. 0.97 and ten ticks the magnitude is 0.1 and
    the result is min 0.0, max 1.0, step 0.1. *)
Theorem unit_interval_plan :
  magnitude (A := b64_arith) (b64_lit 0.03) (b64_lit 0.97) = b64_lit 0.1 /\
  adjust_limits (A := b64_arith) (b64_lit 0.03) (b64_lit 0.97) 10
    = Returns (b64_lit 0, b64_lit 1, b64_lit 0.1) /\
  (magnitude (A := Q_arith) 0.03 0.97 == 0.1)%Q /\
  reduced (adjust_limits (A := Q_arith) 0.03%Q 0.97%Q 10) = Returns (0, 1, 0.1)%Q.
Proof. vm_compute. repeat split. Qed.

(** The zero range in binary64: the magnitude is [10 ** -inf = 0], every
    candidate is 0, and [0 / 0] is NaN, which passes no test. *)
Lemma leb_nan_l (y : float) : PrimFloat.leb PrimFloat.nan y = false.
Proof. rewrite leb_spec. reflexivity. Qed.

Lemma zero_range_magnitude :
  magnitude (A := b64_arith) (b64_lit 0) (b64_lit 0) = PrimFloat.zero.
Proof. vm_compute. reflexivity. Qed.

Lemma zero_range_step (max_ticks : Z) :
  chosen_step (A := b64_arith) (b64_lit 0) (b64_lit 0) max_ticks = PrimFloat.zero.
Proof.
  unfold chosen_step; cbv zeta. rewrite zero_range_magnitude.
  replace (fsub (provisional_max (b64_lit 0) PrimFloat.zero)
                (provisional_min (b64_lit 0) PrimFloat.zero))
    with PrimFloat.nan by (vm_compute; reflexivity).
  replace (step_candidates (A := b64_arith) PrimFloat.zero)
    with (repeat PrimFloat.zero 10) by (vm_compute; reflexivity).
  replace (fmul (lit 5) PrimFloat.zero) with PrimFloat.zero
    by (vm_compute; reflexivity).
  assert (Hq : qualifies (A := b64_arith) PrimFloat.nan max_ticks PrimFloat.zero
               = false).
  { unfold qualifies. cbn [fleb fdiv b64_arith].
    replace (PrimFloat.div PrimFloat.nan PrimFloat.zero) with PrimFloat.nan
      by (vm_compute; reflexivity).
    apply leb_nan_l. }
  cbn [repeat pick_step]. rewrite Hq. reflexivity.
Qed.

(** C5, as stated: for 0 .. 0 the call returns a result; nothing is
    raised. *)
Lemma zero_range_returns_normally :
  (exists plan,
     adjust_limits (A := b64_arith) (b64_lit 0) (b64_lit 0) 10 = Returns plan) /\
  ~ (exists e,
       adjust_limits (A := b64_arith) (b64_lit 0) (b64_lit 0) 10 = Raises e).
Proof.
  split.
  - eexists. rewrite adjust_limits_eq. reflexivity.
  - intros [e He]. rewrite adjust_limits_eq in He. discriminate.
Qed.

(** C5, amended: for 0 .. 0 and any tick limit the call returns the step 0
    with NaN for both bounds. *)
Theorem zero_range_plan (max_ticks : Z) :
  magnitude (A := b64_arith) (b64_lit 0) (b64_lit 0) = PrimFloat.zero /\
  adjust_limits (A := b64_arith) (b64_lit 0) (b64_lit 0) max_ticks
    = Returns (PrimFloat.nan, PrimFloat.nan, PrimFloat.zero).
Proof.
  split; [exact zero_range_magnitude|].
  rewrite adjust_limits_eq; cbv zeta. rewrite zero_range_step.
  vm_compute. reflexivity.
Qed.

End Claims.

End AxisLimits.

(** ** IndexCounter *)

Module Counter.

(** [class IndexCounter], lines 18-36: the object is its field [i]. *)
Record IndexCounter : Type := { i : Z }.

(** [__init__(self, start=0)]. *)
Definition init (start : Z) : IndexCounter := {| i := start |}.

(** [i_next(self)]: increment, then return the new value. *)
Definition i_next (self : IndexCounter) : Z * IndexCounter :=
  let self := {| i := i self + 1 |} in
  (i self, self).

(** [i_curr(self)]. *)
Definition i_curr (self : IndexCounter) : Z * IndexCounter := (i self, self).

(** [reset(self)]: back to zero, whatever [start] was. *)
Definition reset (self : IndexCounter) : unit * IndexCounter :=
  (tt, {| i := 0 |}).

(** A method call, and a sequence of them on one object; each call gives
    the value it returned ([None] for [reset]). *)
Inductive method : Type := Next | Curr | Reset.

Definition call (m : method) (self : IndexCounter) : option Z * IndexCounter :=
  match m with
  | Next => let (v, self) := i_next self in (Some v, self)
  | Curr => let (v, self) := i_curr self in (Some v, self)
  | Reset => let (_, self) := reset self in (None, self)
  end.

Fixpoint calls (ms : list method) (self : IndexCounter)
    : list (option Z) * IndexCounter :=
  match ms with
  | [] => ([], self)
  | m :: ms =>
      let (v, self) := call m self in
      let (vs, self) := calls ms self in
      (v :: vs, self)
  end.

Definition is_next (m : method) : bool :=
  match m with Next => true | _ => false end.

Definition nexts (ms : list method) : Z :=
  Z.of_nat (List.length (filter is_next ms)).

Example counter_session :
  calls [Next; Next; Curr; Reset; Next; Curr] (init 5)
  = ([Some 6; Some 7; Some 7; None; Some 1; Some 1], {| i := 1 |}).
Proof. reflexivity. Qed.

Lemma calls_app (ms1 ms2 : list method) (self : IndexCounter) :
  calls (ms1 ++ ms2) self =
  let (vs1, self1) := calls ms1 self in
  let (vs2, self2) := calls ms2 self1 in
  (vs1 ++ vs2, self2).
Proof.
  revert self. induction ms1 as [|m ms1 IH]; intros self; simpl.
  - now destruct (calls ms2 self).
  - destruct (call m self) as [v self1]. rewrite IH.
    destruct (calls ms1 self1) as [vs1 self2].
    now destruct (calls ms2 self2).
Qed.

Lemma calls_without_reset (ms : list method) (self : IndexCounter) :
  ~ In Reset ms ->
  i (snd (calls ms self)) = i self + nexts ms.
Proof.
  unfold nexts. revert self.
  induction ms as [|m ms IH]; intros self Hno; simpl.
  - lia.
  - assert (Hno' : ~ In Reset ms) by (intros H; apply Hno; now right).
    destruct m; simpl.
    + specialize (IH {| i := i self + 1 |} Hno').
      destruct (calls ms {| i := i self + 1 |}) as [vs self']; simpl in *. lia.
    + specialize (IH self Hno').
      destruct (calls ms self) as [vs self']; simpl in *. lia.
    + exfalso. apply Hno. now left.
Qed.

(** X3: the value of a counter after any sequence of calls.  Without a
    [reset] it is [start] plus the number of [i_next] calls; after a
    [reset] it is the number of [i_next] calls since the last one, and
    [start] is forgotten. *)
Theorem counter_value_after_calls :
  (forall (start : Z) (ms : list method),
     ~ In Reset ms ->
     i (snd (calls ms (init start))) = start + nexts ms) /\
  (forall (start : Z) (before after : list method),
     ~ In Reset after ->
     i (snd (calls (before ++ Reset :: after) (init start))) = nexts after).
Proof.
  split.
  - intros start ms Hno. now rewrite calls_without_reset.
  - intros start before after Hno.
    rewrite calls_app.
    destruct (calls before (init start)) as [vs1 self1].
    cbn [calls call reset].
    pose proof (calls_without_reset after {| i := 0 |} Hno) as H.
    destruct (calls after {| i := 0 |}) as [vs2 self2]; simpl in *. lia.
Qed.

Lemma counter_value_after_calls_witness :
  ~ In Reset [Next; Curr; Next] /\
  i (snd (calls [Next; Curr; Next] (init 5))) = 5 + nexts [Next; Curr; Next] /\
  i (snd (calls ([Next; Next] ++ Reset :: [Next; Curr; Next]) (init 5)))
    = nexts [Next; Curr; Next].
Proof.
  assert (Hno : ~ In Reset [Next; Curr; Next])
    by (intros [H|[H|[H|[]]]]; discriminate).
  exact (conj Hno
          (conj (proj1 counter_value_after_calls 5 _ Hno)
                (proj2 counter_value_after_calls 5 [Next; Next] _ Hno))).
Defined.

(** [i_next] returns what [i_curr] reads right after it, one more than
    what [i_curr] read before; [i_curr] changes nothing. *)
Lemma i_next_then_i_curr (self : IndexCounter) :
  let (before, self0) := i_curr self in
  let (v, self1) := i_next self0 in
  let (after, self2) := i_curr self1 in
  self0 = self /\ v = before + 1 /\ after = v /\ self2 = self1.
Proof. destruct self as [n]. simpl. auto. Qed.

End Counter.

(** ** Drawing on the axes

    The drawing functions act on matplotlib only through method calls.  The
    axes are modelled by the calls made on them so far, in order, each with
    the arguments the source passes; what matplotlib does with a call is
    not modelled.  A dictionary is a finite map, and a function either
    finishes or raises, leaving on the axes what it drew before. *)

From Stdlib Require Import Ascii.
From stdpp Require Import gmap strings.

Module Drawing.

Import Quarterly AxisLimits.

Local Open Scope Z_scope.

(** The values a [trade_info] dictionary holds. *)
Inductive pyval : Type :=
| PyFloat (x : Q)
| PyTime (t : Timestamp)
| PyStr (s : string).

(** A bar chart's [color=] argument: one colour or one per bar. *)
Inductive bar_color : Type :=
| OneColor (c : string)
| Colors (cs : list string).

(** The matplotlib calls of [graphs_func.py]. *)
Inductive mpl_call : Type :=
| SetXlim (left right : Timestamp)
| SetXticks (ticks : list Timestamp)
| SetMajorFormatter (date_format : string)
| TickParams (axis : string) (rotation : Z)
| PltXticks (rotation : Z)
| Axhline (y : pyval) (color linestyle : string) (linewidth : Q) (alpha : option Q)
| Axvline (x : pyval) (color linestyle : string) (linewidth alpha : Q)
| SetYlim (bottom top : Q)
| SetYticks (ticks : list Q)
| SetYlabel (ylabel : string) (fontsize : Z)
| Step (x : list Timestamp) (y : list Q) (color : string) (linewidth : Q)
| FillBetween (x : list Timestamp) (y1 : list Q) (y2 : Q) (where_ : list bool)
    (facecolor : string) (alpha : Q)
| Bar (x : list Timestamp) (height : list Q) (color : bar_color)
    (width linewidth : Q).

Definition axes : Type := list mpl_call.

Inductive exn : Type :=
| KeyError (key : string)     (* a missing dictionary key or column *)
| IndexError                  (* [s[-1]] on an empty string *)
| PyTypeError                 (* TypeError: arithmetic on [None], or a
                                 number compared with a value that is
                                 not one *)
| FrequencyError              (* [pd.date_range] refuses the frequency *)
| ZeroStepError.              (* [np.arange] with a zero step: by the
                                 argument types ZeroDivisionError,
                                 ValueError or OverflowError *)

Inductive result (A : Type) : Type :=
| Done (a : A)
| Raise (e : exn).

Arguments Done {A} a.
Arguments Raise {A} e.

(** A computation that draws. *)
Definition draw (A : Type) : Type := axes -> axes * result A.

Definition ret {A : Type} (a : A) : draw A := fun ax => (ax, Done a).

Definition raise {A : Type} (e : exn) : draw A := fun ax => (ax, Raise e).

Definition bind {A B : Type} (m : draw A) (k : A -> draw B) : draw B :=
  fun ax =>
    match m ax with
    | (ax, Done a) => k a ax
    | (ax, Raise e) => (ax, Raise e)
    end.

(** One method call on the axes. *)
Definition emit (c : mpl_call) : draw unit := fun ax => (ax ++ [c], Done tt).

Notation "x <- m ;; k" := (bind m (fun x => k))
  (at level 100, m at next level, right associativity).
Notation "m ;;; k" := (bind m (fun _ => k))
  (at level 100, right associativity).

(** [d[key]]. *)
Definition getitem {V : Type} (d : gmap string V) (key : string) : draw V :=
  match d !! key with
  | Some v => ret v
  | None => raise (KeyError key)
  end.

(** [plot_vertical_lines(ax, dates)], lines 97-106. *)
Fixpoint plot_vertical_lines (dates : list Timestamp) : draw unit :=
  match dates with
  | [] => ret tt
  | date :: dates =>
      emit (Axvline (PyTime date) "black" "--" 1 0.35) ;;;
      plot_vertical_lines dates
  end.

(** [exit_colors.get(reason, 'brown')], lines 152-156. *)
Definition exit_colors : gmap string string :=
  {[ "stop_loss" := "red"; "take_profit" := "green" ]}.

Definition exit_colors_get (reason : pyval) (default : string) : string :=
  match reason with
  | PyStr s => match exit_colors !! s with Some c => c | None => default end
  | _ => default
  end.

(** [draw_trade_info(ax, trade_info, with_sl_tp=False, linewidth_=0.6,
    alpha_=0.8)], lines 134-157. *)
Definition draw_trade_info (trade_info : gmap string pyval) (with_sl_tp : bool)
    (linewidth_ alpha_ : Q) : draw unit :=
  (if with_sl_tp then
     sl_price <- getitem trade_info "sl_price" ;;
     emit (Axhline sl_price "red" "-" linewidth_ (Some alpha_)) ;;;
     tp_price <- getitem trade_info "tp_price" ;;
     emit (Axhline tp_price "green" "-" linewidth_ (Some alpha_))
   else ret tt) ;;;
  t_entry <- getitem trade_info "t_entry" ;;
  emit (Axvline t_entry "black" "--" linewidth_ alpha_) ;;;
  reason_exit <- getitem trade_info "reason_exit" ;;
  let exit_color := exit_colors_get reason_exit "brown" in
  t_exit <- getitem trade_info "t_exit" ;;
  emit (Axvline t_exit exit_color "--" linewidth_ alpha_).

(** *** What a drawing adds

    A computation appends when it only adds calls after those already made,
    and what it adds and how it ends do not depend on them. *)
Definition appends {A : Type} (m : draw A) : Prop :=
  exists added r, forall ax, m ax = (ax ++ added, r).

Lemma appends_ret {A : Type} (a : A) : appends (ret a).
Proof. exists [], (Done a). intros ax. unfold ret. now rewrite app_nil_r. Qed.

Lemma appends_raise {A : Type} (e : exn) : appends (raise (A := A) e).
Proof. exists [], (Raise e). intros ax. unfold raise. now rewrite app_nil_r. Qed.

Lemma appends_emit (c : mpl_call) : appends (emit c).
Proof. now exists [c], (Done tt). Qed.

Lemma appends_bind {A B : Type} (m : draw A) (k : A -> draw B) :
  appends m -> (forall a, appends (k a)) -> appends (bind m k).
Proof.
  intros (added1 & r1 & Hm) Hk. destruct r1 as [a|e].
  - destruct (Hk a) as (added2 & r2 & Hka).
    exists (added1 ++ added2), r2. intros ax.
    unfold bind. rewrite Hm, Hka. now rewrite <- app_assoc.
  - exists added1, (Raise e). intros ax. unfold bind. now rewrite Hm.
Qed.

Lemma appends_getitem {V : Type} (d : gmap string V) (key : string) :
  appends (getitem d key).
Proof.
  unfold getitem. destruct (d !! key); [apply appends_ret|apply appends_raise].
Qed.

Ltac appends_step :=
  first
    [ apply appends_bind; [|intros ?]
    | apply appends_ret | apply appends_raise | apply appends_emit
    | apply appends_getitem
    | match goal with
      | |- appends (match ?x with _ => _ end) => destruct x
      | |- appends (if ?b then _ else _) => destruct b
      | |- appends (let '(_, _) := ?p in _) => destruct p
      end ].

Lemma plot_vertical_lines_calls (dates : list Timestamp) (ax : axes) :
  plot_vertical_lines dates ax =
  (ax ++ map (fun date => Axvline (PyTime date) "black" "--" 1 0.35) dates,
   Done tt).
Proof.
  revert ax. induction dates as [|date dates IH]; intros ax; simpl.
  - unfold ret. now rewrite app_nil_r.
  - unfold bind, emit. rewrite IH. now rewrite <- app_assoc.
Qed.

Lemma appends_draw_trade_info (trade_info : gmap string pyval)
    (with_sl_tp : bool) (linewidth_ alpha_ : Q) :
  appends (draw_trade_info trade_info with_sl_tp linewidth_ alpha_).
Proof. unfold draw_trade_info. repeat appends_step. Qed.

(** *** plot_vertical_lines *)

(** X9: [plot_vertical_lines] adds one dashed black vertical line per date,
    in the order of the dates, and never raises; given the dates that
    [calculate_quarterly_dates] returns, every line it adds is at a date of
    the index. *)
Theorem plot_vertical_lines_one_per_date :
  (forall (dates : list Timestamp) (ax : axes),
     plot_vertical_lines dates ax =
     (ax ++ map (fun date => Axvline (PyTime date) "black" "--" 1 0.35) dates,
      Done tt)) /\
  (forall (index : list Timestamp) (shift_back_days : Z)
          (dates : list Timestamp) (ax : axes) (c : mpl_call),
     calculate_quarterly_dates index shift_back_days = Returns dates ->
     In c (fst (plot_vertical_lines dates ax)) ->
     In c ax \/
     exists date, In date index /\ c = Axvline (PyTime date) "black" "--" 1 0.35).
Proof.
  split; [exact plot_vertical_lines_calls|].
  intros index shift dates ax c Hdates Hin.
  rewrite plot_vertical_lines_calls in Hin. cbn [fst] in Hin.
  apply in_app_iff in Hin. destruct Hin as [Hin|Hin]; [now left|right].
  apply in_map_iff in Hin. destruct Hin as (date & <- & Hdate).
  exists date. split; [|reflexivity].
  destruct (calculate_quarterly_dates_returns _ _ _ Hdates)
    as (lo & hi & _ & _ & ->).
  apply quarter_loop_In in Hdate. now destruct Hdate.
Qed.

(** *** draw_trade_info: keys, lines and colours *)

(** The keys [draw_trade_info] reads, in the order it reads them. *)
Definition required_keys (with_sl_tp : bool) : list string :=
  (if with_sl_tp then ["sl_price"; "tp_price"] else []) ++
  ["t_entry"; "reason_exit"; "t_exit"].

Definition has_key (d : gmap string pyval) (key : string) : bool :=
  match d !! key with Some _ => true | None => false end.

Definition first_missing (d : gmap string pyval) (keys : list string)
    : option string :=
  List.find (fun key => negb (has_key d key)) keys.

Ltac run_draw :=
  repeat first
    [ progress cbn [bind emit ret raise fst snd app]
    | match goal with
      | H : ?d !! ?k = _ |- context [getitem ?d ?k] =>
          unfold getitem at 1; rewrite H
      | H : ?d !! ?k = _ |- context [has_key ?d ?k] =>
          unfold has_key at 1; rewrite H
      end ];
  unfold emit, ret, raise.

(** X5: [draw_trade_info] returns normally exactly when the dictionary has
    every key it reads; otherwise it raises [KeyError] for the first
    missing key, in the order sl_price, tp_price (both only with
    [with_sl_tp]), t_entry, reason_exit, t_exit. *)
Theorem draw_trade_info_first_missing_key (trade_info : gmap string pyval)
    (with_sl_tp : bool) (linewidth_ alpha_ : Q) (ax : axes) :
  snd (draw_trade_info trade_info with_sl_tp linewidth_ alpha_ ax) =
  match first_missing trade_info (required_keys with_sl_tp) with
  | None => Done tt
  | Some key => Raise (KeyError key)
  end.
Proof.
  unfold draw_trade_info, first_missing, required_keys.
  destruct with_sl_tp; cbn [app List.find];
    repeat match goal with
           | |- context [getitem ?d ?k] =>
               lazymatch goal with
               | H : d !! k = _ |- _ => fail
               | _ => destruct (d !! k) eqn:?
               end; run_draw; try reflexivity
           end.
Qed.

Lemma exit_colors_get_cases (reason : pyval) :
  (reason = PyStr "stop_loss" /\ exit_colors_get reason "brown" = "red") \/
  (reason = PyStr "take_profit" /\ exit_colors_get reason "brown" = "green") \/
  (reason <> PyStr "stop_loss" /\ reason <> PyStr "take_profit" /\
   exit_colors_get reason "brown" = "brown").
Proof.
  destruct reason as [x|t|s]; unfold exit_colors_get;
    try (right; right; repeat split; congruence).
  unfold exit_colors.
  destruct (decide (s = "stop_loss")) as [->|Hsl]; [left; split; reflexivity|].
  destruct (decide (s = "take_profit")) as [->|Htp];
    [right; left; split; reflexivity|].
  right; right. repeat split; try congruence.
  rewrite lookup_insert_ne by congruence.
  now rewrite lookup_singleton_ne by congruence.
Qed.

(** X6: with every key present, [draw_trade_info] adds, in this order, the
    red stop-loss and green take-profit horizontal lines (only with
    [with_sl_tp]), the black entry line and the exit line; the exit line is
    red for the reason 'stop_loss', green for 'take_profit' and brown for
    anything else. *)
Theorem draw_trade_info_lines (trade_info : gmap string pyval)
    (with_sl_tp : bool) (linewidth_ alpha_ : Q) (ax : axes)
    (sl_price tp_price t_entry reason_exit t_exit : pyval) :
  (with_sl_tp = true ->
   trade_info !! "sl_price" = Some sl_price /\
   trade_info !! "tp_price" = Some tp_price) ->
  trade_info !! "t_entry" = Some t_entry ->
  trade_info !! "reason_exit" = Some reason_exit ->
  trade_info !! "t_exit" = Some t_exit ->
  exists exit_color,
    draw_trade_info trade_info with_sl_tp linewidth_ alpha_ ax =
    (ax ++
     (if with_sl_tp
      then [Axhline sl_price "red" "-" linewidth_ (Some alpha_);
            Axhline tp_price "green" "-" linewidth_ (Some alpha_)]
      else []) ++
     [Axvline t_entry "black" "--" linewidth_ alpha_;
      Axvline t_exit exit_color "--" linewidth_ alpha_],
     Done tt) /\
    (reason_exit = PyStr "stop_loss" -> exit_color = "red") /\
    (reason_exit = PyStr "take_profit" -> exit_color = "green") /\
    (reason_exit <> PyStr "stop_loss" -> reason_exit <> PyStr "take_profit" ->
     exit_color = "brown").
Proof.
  intros Hsltp Hentry Hreason Hexit.
  exists (exit_colors_get reason_exit "brown"). split.
  - unfold draw_trade_info. destruct with_sl_tp.
    + destruct (Hsltp eq_refl) as [Hsl Htp]. run_draw.
      now rewrite <- !app_assoc.
    + run_draw. now rewrite <- !app_assoc.
  - destruct (exit_colors_get_cases reason_exit)
      as [[-> ->]|[[-> ->]|(Hn1 & Hn2 & ->)]];
      repeat split; intros; congruence.
Qed.


(** A sample dictionary. *)
Definition sample_trade : gmap string pyval :=
  <["sl_price" := PyFloat 95]>
    (<["tp_price" := PyFloat 110]>
       (<["t_entry" := PyTime 19520]>
          (<["t_exit" := PyTime 19527]>
             {["reason_exit" := PyStr "take_profit"]}))).

Example sample_trade_drawn :
  draw_trade_info sample_trade true 0.6 0.8 [] =
  ([Axhline (PyFloat 95) "red" "-" 0.6 (Some 0.8%Q);
    Axhline (PyFloat 110) "green" "-" 0.6 (Some 0.8%Q);
    Axvline (PyTime 19520) "black" "--" 0.6 0.8;
    Axvline (PyTime 19527) "green" "--" 0.6 0.8], Done tt).
Proof. vm_compute. reflexivity. Qed.

Lemma draw_trade_info_lines_witness :
  exists exit_color,
    draw_trade_info sample_trade true 0.6 0.8 [] =
    ([] ++
     [Axhline (PyFloat 95) "red" "-" 0.6 (Some 0.8%Q);
      Axhline (PyFloat 110) "green" "-" 0.6 (Some 0.8%Q)] ++
     [Axvline (PyTime 19520) "black" "--" 0.6 0.8;
      Axvline (PyTime 19527) exit_color "--" 0.6 0.8],
     Done tt) /\
    (PyStr "take_profit" = PyStr "take_profit" -> exit_color = "green").
Proof.
  destruct (draw_trade_info_lines sample_trade true 0.6 0.8 []
              (PyFloat 95) (PyFloat 110) (PyTime 19520)
              (PyStr "take_profit") (PyTime 19527)
              (fun _ => conj eq_refl eq_refl) eq_refl eq_refl eq_refl)
    as (exit_color & Hdraw & _ & Hgreen & _).
  exists exit_color. exact (conj Hdraw Hgreen).
Defined.



(** X8: without [with_sl_tp], [draw_trade_info] never reads sl_price or
    tp_price and draws no horizontal line: removing the two keys changes
    nothing, and every call it adds is a dashed vertical line. *)
Theorem draw_trade_info_ignores_sl_tp (trade_info : gmap string pyval)
    (linewidth_ alpha_ : Q) (ax : axes) :
  draw_trade_info (delete "sl_price" (delete "tp_price" trade_info))
                  false linewidth_ alpha_ ax =
  draw_trade_info trade_info false linewidth_ alpha_ ax /\
  forall c,
    In c (fst (draw_trade_info trade_info false linewidth_ alpha_ ax)) ->
    In c ax \/ exists x color, c = Axvline x color "--" linewidth_ alpha_.
Proof.
  split.
  - unfold draw_trade_info, getitem.
    now rewrite !lookup_delete_ne by discriminate.
  - intros c. unfold draw_trade_info.
    destruct (trade_info !! "t_entry") as [t_entry|] eqn:Hentry;
      [|run_draw; cbn; auto].
    destruct (trade_info !! "reason_exit") as [reason|] eqn:Hreason;
      [destruct (trade_info !! "t_exit") as [t_exit|] eqn:Hexit|];
      run_draw; cbn; rewrite ?in_app_iff; cbn; intuition eauto.
Qed.

(** A [pd.DataFrame]: its index and its columns of floats, in exact
    arithmetic. *)
Record DataFrame : Type := {
  index : list Timestamp;
  columns : gmap string (list Q)
}.

(** Lines 11-15. *)
Definition UPPER_QUANTILE : Q := 0.97.
Definition LOWER_QUANTILE : Q := 0.03.
Definition Y_TICKS_STEP_DEFAULT : Z := 6.

(** [np.arange(start, stop, step)] without rounding:
    [ceil((stop - start) / step)] values [start + i * step].  NumPy forms
    the quotient and the values in binary64 and can give one tick more or
    less (eight ticks, not seven, from 0 to 1 in sixths).  The properties
    below use of the ticks only that there are some when the step is not
    zero. *)
Definition np_arange (start stop step : Q) : draw (list Q) :=
  if Qeq_bool step 0 then raise ZeroStepError
  else
    ret (map (fun i => start + inject_Z (Z.of_nat i) * step)
             (seq 0 (Z.to_nat (Qceiling ((stop - start) / step)))))%Q.

(** [adjust_limits], on the exact instance, as a step of a drawing.  The
    numbers are those of the algorithm without rounding, and for an
    all-zero range the step returns where the code goes on with NaN limits
    and fails in the next call; no property below depends on the values it
    gives or on its finishing. *)
Definition adjust_limits_exact (y_min y_max : Q) : draw (Q * Q * Q) :=
  match adjust_limits (A := Q_arith) y_min y_max 10 with
  | Returns plan => ret plan
  | Raises _ => raise PyTypeError
  end.

(** A dictionary value used as a number in a comparison with a float. *)
Definition as_number (v : pyval) : draw Q :=
  match v with
  | PyFloat x => ret x
  | _ => raise PyTypeError
  end.

(** The builtin [min(a, b)]: the later argument wins only when it is
    strictly smaller. *)
Definition py_min (a b : Q) : Q := if fltb (Arith := Q_arith) b a then b else a.

(** [s[-1]]. *)
Fixpoint last_char (s : string) : option Ascii.ascii :=
  match s with
  | EmptyString => None
  | String c EmptyString => Some c
  | String _ rest => last_char rest
  end.

(** [if trade_info:] for a dictionary or [None]. *)
Definition truthy (trade_info : option (gmap string pyval)) : bool :=
  match trade_info with
  | Some d => negb (bool_decide (d = ∅))
  | None => false
  end.

(** *** Reading a finished drawing backwards *)







(** *** The ticks of an axis *)

Section Ticks.
Local Open Scope Q_scope.



(** Running a drawing forwards. *)
Lemma bind_ret {A B : Type} (a : A) (k : A -> draw B) (ax : axes) :
  bind (ret a) k ax = k a ax.
Proof. reflexivity. Qed.

Lemma bind_raise {A B : Type} (e : exn) (k : A -> draw B) (ax : axes) :
  bind (raise e) k ax = (ax, Raise e).
Proof. reflexivity. Qed.

Lemma bind_emit {B : Type} (c : mpl_call) (k : unit -> draw B) (ax : axes) :
  bind (emit c) k ax = k tt (ax ++ [c]).
Proof. reflexivity. Qed.



End Ticks.

Section Pandas.

(** What pandas computes is taken as given: the reductions of a column,
    the ends of the index, and [pd.date_range], which gives the ticks or
    refuses the frequency string. *)
Variable series_min series_max : list Q -> Q.
Variable series_quantile : list Q -> Q -> Q.
Variable index_min index_max : list Timestamp -> Timestamp.
Variable date_range : Timestamp -> Timestamp -> string -> option (list Timestamp).

(** [setup_x_axis(ax, start_date_obj, end_date_obj, t_freq)], lines
    109-131. *)
Definition setup_x_axis (start_date_obj end_date_obj : Timestamp)
    (t_freq : string) : draw unit :=
  emit (SetXlim start_date_obj end_date_obj) ;;;
  ticks <- match date_range start_date_obj end_date_obj t_freq with
           | Some ticks => ret ticks
           | None => raise FrequencyError
           end ;;
  emit (SetXticks ticks) ;;;
  last <- match last_char t_freq with
          | Some c => ret c
          | None => raise IndexError
          end ;;
  let date_format :=
    if Ascii.eqb last "D"%char then "%d.%m.%y" else "%d.%m.%y %H:%M" in
  emit (SetMajorFormatter date_format) ;;;
  emit (TickParams "x" 90) ;;;
  emit (PltXticks 90).

(** [draw_line(ax, df, str_name, trade_info=None, y_min=None, y_max=None,
    df_bound=None, line_color='grey', linewidth_=0.3, sep_line=None,
    color_pos=None, color_neg=None)], lines 190-235. *)
Definition draw_line (df : DataFrame) (str_name : string)
    (trade_info : option (gmap string pyval)) (y_min y_max : option Q)
    (df_bound : option DataFrame) (line_color : string) (linewidth_ : Q)
    (sep_line : option Q) (color_pos color_neg : option string) : draw unit :=
  let font_s := FontSize.get_font_size str_name in
  limits <- match y_min, y_max, df_bound with
            | None, None, None =>
                column <- getitem (columns df) str_name ;;
                adjust_limits_exact (series_min column) (series_max column)
            | None, None, Some df_bound =>
                column <- getitem (columns df_bound) str_name ;;
                adjust_limits_exact (series_quantile column LOWER_QUANTILE)
                                    (series_quantile column UPPER_QUANTILE)
            | Some y_min, Some y_max, _ =>
                ret (y_min, y_max,
                     (y_max - y_min) / inject_Z Y_TICKS_STEP_DEFAULT)%Q
            | _, _, _ => raise PyTypeError
            end ;;
  let '(y_min, y_max, yticks_step) := limits in
  emit (SetYlim y_min y_max) ;;;
  ticks <- np_arange y_min (y_max + yticks_step) yticks_step ;;
  emit (SetYticks ticks) ;;;
  emit (SetYlabel str_name font_s) ;;;
  match trade_info with
  | Some trade_info => draw_trade_info trade_info false 0.6 0.8
  | None => ret tt
  end ;;;
  column <- getitem (columns df) str_name ;;
  emit (Step (index df) column line_color linewidth_) ;;;
  match sep_line with
  | Some sep_line =>
      emit (Axhline (PyFloat sep_line) "grey" "--" 1 None) ;;;
      match color_pos, color_neg with
      | Some color_pos, Some color_neg =>
          emit (FillBetween (index df) column 0
                  (map (fun value => negb (Qle_bool value sep_line)) column)
                  color_pos 0.4) ;;;
          emit (FillBetween (index df) column 0
                  (map (fun value => Qle_bool value sep_line) column)
                  color_neg 0.4)
      | _, _ => ret tt
      end
  | None => ret tt
  end.

(** [draw_price(ax, df, time_step_sec, trade_info=None, linewidth_=0.5,
    futures_price=True)], lines 238-272. *)
Definition draw_price (df : DataFrame) (time_step_sec : Z)
    (trade_info : option (gmap string pyval)) (linewidth_ : Q)
    (futures_price : bool) : draw unit :=
  let '(high_price, low_price, close_price) :=
    if futures_price then ("high_d", "low_d", "close_d")
    else ("high", "low", "close") in
  let t_freq := if time_step_sec =? 300 then "6H" else "1D" in
  setup_x_axis (index_min (index df)) (index_max (index df)) t_freq ;;;
  prices <- match trade_info with
            | Some trade_info =>
                high <- getitem (columns df) high_price ;;
                sl_price <- getitem trade_info "sl_price" ;;
                tp_price <- getitem trade_info "tp_price" ;;
                sl <- as_number sl_price ;;
                tp <- as_number tp_price ;;
                let max_price := py_max (py_max (series_max high) sl) tp in
                low <- getitem (columns df) low_price ;;
                let min_price := py_min (py_min (series_min low) sl) tp in
                draw_trade_info trade_info true 0.6 0.8 ;;;
                ret (max_price, min_price)
            | None =>
                high <- getitem (columns df) high_price ;;
                low <- getitem (columns df) low_price ;;
                ret (series_max high, series_min low)
            end ;;
  let '(max_price, min_price) := prices in
  close <- getitem (columns df) close_price ;;
  emit (Step (index df) close "blue" linewidth_) ;;;
  high <- getitem (columns df) high_price ;;
  emit (Step (index df) high "dimgray" linewidth_) ;;;
  low <- getitem (columns df) low_price ;;
  emit (Step (index df) low "dimgray" linewidth_) ;;;
  emit (SetYlabel close_price (FontSize.get_font_size close_price)) ;;;
  limits <- adjust_limits_exact min_price max_price ;;
  let '(y_min, y_max, yticks_step) := limits in
  ticks <- np_arange y_min (y_max + yticks_step) yticks_step ;;
  emit (SetYticks ticks) ;;;
  emit (SetYlim y_min y_max).

(** [draw_bar(ax, df, time_step_sec, str_name, trade_info=None, y_min=None,
    y_max=None, df_bound=None, sep_line=0, bar_color_pos='green',
    bar_color_neg=None)], lines 275-322. *)
Definition draw_bar (df : DataFrame) (time_step_sec : Z) (str_name : string)
    (trade_info : option (gmap string pyval)) (y_min y_max : option Q)
    (df_bound : option DataFrame) (sep_line : Q) (bar_color_pos : string)
    (bar_color_neg : option string) : draw unit :=
  let font_s := FontSize.get_font_size str_name in
  let width_in_days :=
    (0.7 * inject_Z time_step_sec / inject_Z (24 * 60 * 60))%Q in
  limits <- match y_min, y_max, df_bound with
            | None, None, None =>
                column <- getitem (columns df) str_name ;;
                adjust_limits_exact (series_min column) (series_max column)
            | None, None, Some df_bound =>
                column <- getitem (columns df_bound) str_name ;;
                adjust_limits_exact (series_quantile column LOWER_QUANTILE)
                                    (series_quantile column UPPER_QUANTILE)
            | Some y_min, Some y_max, _ =>
                ret (y_min, y_max, inject_Z Y_TICKS_STEP_DEFAULT)
            | _, _, _ => raise PyTypeError
            end ;;
  let '(y_min, y_max, yticks_step) := limits in
  ticks <- np_arange y_min (y_max + yticks_step) yticks_step ;;
  emit (SetYticks ticks) ;;;
  emit (SetYlim y_min y_max) ;;;
  emit (SetYlabel str_name font_s) ;;;
  match trade_info with
  | Some trade_info =>
      if truthy (Some trade_info) then draw_trade_info trade_info false 0.6 0.8
      else ret tt
  | None => ret tt
  end ;;;
  column <- getitem (columns df) str_name ;;
  match bar_color_neg with
  | Some bar_color_neg =>
      let bar_colors :=
        map (fun value =>
               if negb (Qle_bool value sep_line) then bar_color_pos
               else bar_color_neg) column in
      emit (Bar (index df) column (Colors bar_colors) width_in_days 0)
  | None =>
      emit (Bar (index df) column (OneColor bar_color_pos) width_in_days 0)
  end.

(** *** Steps that only append *)

Lemma appends_np_arange (start stop step : Q) :
  appends (np_arange start stop step).
Proof. unfold np_arange. repeat appends_step. Qed.

Lemma appends_adjust_limits_exact (y_min y_max : Q) :
  appends (adjust_limits_exact y_min y_max).
Proof. unfold adjust_limits_exact. repeat appends_step. Qed.

Lemma appends_as_number (v : pyval) : appends (as_number v).
Proof. unfold as_number. repeat appends_step. Qed.

Ltac appends_all :=
  repeat first
    [ apply appends_np_arange | apply appends_adjust_limits_exact
    | apply appends_as_number | apply appends_draw_trade_info
    | appends_step ].




(** X13: when exactly one of [y_min] and [y_max] is given, [draw_line] and
    [draw_bar] raise [TypeError] before any call is made on the axes. *)
Theorem one_limit_given_raises (df : DataFrame) (time_step_sec : Z)
    (str_name : string) (trade_info : option (gmap string pyval))
    (y_min y_max : option Q) (df_bound : option DataFrame)
    (line_color : string) (linewidth_ : Q) (sep_line : option Q)
    (color_pos color_neg : option string) (bar_sep_line : Q)
    (bar_color_pos : string) (bar_color_neg : option string) (ax : axes) :
  (y_min = None /\ y_max <> None) \/ (y_min <> None /\ y_max = None) ->
  draw_line df str_name trade_info y_min y_max df_bound line_color linewidth_
    sep_line color_pos color_neg ax = (ax, Raise PyTypeError) /\
  draw_bar df time_step_sec str_name trade_info y_min y_max df_bound
    bar_sep_line bar_color_pos bar_color_neg ax = (ax, Raise PyTypeError).
Proof.
  intros [[-> Hmax]|[Hmin ->]].
  - destruct y_max as [y_max|]; [|congruence].
    unfold draw_line, draw_bar. split; reflexivity.
  - destruct y_min as [y_min|]; [|congruence].
    unfold draw_line, draw_bar. split; reflexivity.
Qed.

(** *** An empty trade dictionary *)


(** *** The x axis *)

Lemma setup_x_axis_calls (start_date_obj end_date_obj : Timestamp)
    (t_freq : string) (ticks : list Timestamp) (c : Ascii.ascii) (ax : axes) :
  date_range start_date_obj end_date_obj t_freq = Some ticks ->
  last_char t_freq = Some c ->
  setup_x_axis start_date_obj end_date_obj t_freq ax =
  (ax ++ [SetXlim start_date_obj end_date_obj; SetXticks ticks;
          SetMajorFormatter
            (if Ascii.eqb c "D"%char then "%d.%m.%y" else "%d.%m.%y %H:%M");
          TickParams "x" 90; PltXticks 90],
   Done tt).
Proof.
  intros Hrange Hlast. unfold setup_x_axis.
  rewrite bind_emit, Hrange, bind_ret, bind_emit, Hlast, bind_ret.
  cbv zeta. rewrite !bind_emit. unfold emit. now rewrite <- !app_assoc.
Qed.

Lemma setup_x_axis_refused (start_date_obj end_date_obj : Timestamp)
    (t_freq : string) (ax : axes) :
  date_range start_date_obj end_date_obj t_freq = None ->
  setup_x_axis start_date_obj end_date_obj t_freq ax =
  (ax ++ [SetXlim start_date_obj end_date_obj], Raise FrequencyError).
Proof.
  intros Hrange. unfold setup_x_axis.
  now rewrite bind_emit, Hrange, bind_raise.
Qed.

(** X15: [draw_price] sets up the x axis before it reads any column: the
    limits are the ends of the index; with [time_step_sec = 300] the ticks
    are six-hourly and labelled with date and time, otherwise daily and
    labelled with the date alone.  If pandas refuses the frequency, the
    limits are already set when the error is raised. *)
Theorem draw_price_x_axis (df : DataFrame) (time_step_sec : Z)
    (trade_info : option (gmap string pyval)) (linewidth_ : Q)
    (futures_price : bool) (ax : axes) :
  let t_freq := if time_step_sec =? 300 then "6H" else "1D" in
  let first := index_min (index df) in
  let final := index_max (index df) in
  (forall ticks,
     date_range first final t_freq = Some ticks ->
     exists rest r,
       draw_price df time_step_sec trade_info linewidth_ futures_price ax =
       (ax ++ [SetXlim first final; SetXticks ticks;
               SetMajorFormatter
                 (if time_step_sec =? 300 then "%d.%m.%y %H:%M"
                  else "%d.%m.%y");
               TickParams "x" 90; PltXticks 90] ++ rest, r)) /\
  (date_range first final t_freq = None ->
   draw_price df time_step_sec trade_info linewidth_ futures_price ax =
   (ax ++ [SetXlim first final], Raise FrequencyError)).
Proof.
  cbv zeta. split.
  - intros ticks Hrange.
    assert (Hlast : last_char (if time_step_sec =? 300 then "6H" else "1D")
                    = Some (if time_step_sec =? 300 then "H"%char else "D"%char))
      by (destruct (time_step_sec =? 300); reflexivity).
    pose proof (setup_x_axis_calls _ _ _ _ _ ax Hrange Hlast) as Hx.
    replace (if Ascii.eqb (if time_step_sec =? 300 then "H"%char else "D"%char)
                          "D"%char
             then "%d.%m.%y" else "%d.%m.%y %H:%M")
      with (if time_step_sec =? 300 then "%d.%m.%y %H:%M" else "%d.%m.%y")
      in Hx by (destruct (time_step_sec =? 300); reflexivity).
    unfold draw_price.
    destruct futures_price; cbv zeta iota beta;
      (unfold bind at 1; rewrite Hx);
      lazymatch goal with
      | |- exists rest r, ?tail ?ax0 = _ =>
          let Ht := fresh "Htail" in
          assert (Ht : appends tail) by appends_all;
          destruct Ht as (added & r & Hrun);
          exists added, r; rewrite Hrun
      end;
      now rewrite <- !app_assoc.
  - intros Hrange.
    pose proof (setup_x_axis_refused _ _ _ ax Hrange) as Hx.
    unfold draw_price.
    destruct futures_price; cbv zeta iota beta;
      unfold bind at 1; now rewrite Hx.
Qed.

End Pandas.

(** *** A worked example

    Stand-ins for what pandas computes, on a small frame of three daily
    candles, and the sample trade. *)
Definition example_min (column : list Q) : Q :=
  match column with
  | [] => 0
  | x :: xs => fold_left py_min xs x
  end.

Definition example_max (column : list Q) : Q :=
  match column with
  | [] => 0
  | x :: xs => fold_left (py_max (A := Q_arith)) xs x
  end.

Definition example_quantile (column : list Q) (q : Q) : Q :=
  if Qle_bool q 0.5 then example_min column else example_max column.

Definition example_first (index : list Timestamp) : Timestamp :=
  match index with
  | [] => 0
  | t :: ts => fold_left Z.min ts t
  end.

Definition example_last (index : list Timestamp) : Timestamp :=
  match index with
  | [] => 0
  | t :: ts => fold_left Z.max ts t
  end.

Definition example_date_range (first final : Timestamp) (t_freq : string)
    : option (list Timestamp) :=
  if String.eqb t_freq "1D" then Some (py_range first (final + 1)) else None.

Definition example_df : DataFrame :=
  {| index := [19520; 19521; 19522];
     columns :=
       <["high_d" := [101; 104; 103]%Q]>
         (<["low_d" := [99; 100; 98]%Q]>
            (<["close_d" := [100; 103; 99]%Q]>
               {["rsi" := [0.5; 2; 1.5]%Q]})) |}.

Definition example_draw_price : draw unit :=
  draw_price example_min example_max example_first example_last
    example_date_range example_df 86400 (Some sample_trade) 0.5 true.

Example example_price_chart :
  firstn 13 (fst (example_draw_price [])) =
  [SetXlim 19520 19522; SetXticks [19520; 19521; 19522];
   SetMajorFormatter "%d.%m.%y"; TickParams "x" 90; PltXticks 90;
   Axhline (PyFloat 95) "red" "-" 0.6 (Some 0.8%Q);
   Axhline (PyFloat 110) "green" "-" 0.6 (Some 0.8%Q);
   Axvline (PyTime 19520) "black" "--" 0.6 0.8;
   Axvline (PyTime 19527) "green" "--" 0.6 0.8;
   Step [19520; 19521; 19522] [100; 103; 99]%Q "blue" 0.5;
   Step [19520; 19521; 19522] [101; 104; 103]%Q "dimgray" 0.5;
   Step [19520; 19521; 19522] [99; 100; 98]%Q "dimgray" 0.5;
   SetYlabel "close_d" 10] /\
  snd (example_draw_price []) = Done tt.
Proof. vm_compute. split; reflexivity. Qed.

Lemma one_limit_given_raises_witness :
  ((Some 0%Q = None /\ @None Q <> None) \/
   (Some 0%Q <> None /\ @None Q = None)) /\
  draw_line example_min example_max example_quantile example_df "rsi" None
    (Some 0%Q) None None "grey" 0.3%Q None None None []
    = ([], Raise PyTypeError) /\
  draw_bar example_min example_max example_quantile example_df 86400 "rsi"
    None (Some 0%Q) None None 0%Q "green" None [] = ([], Raise PyTypeError).
Proof.
  assert (H : (Some 0%Q = None /\ @None Q <> None) \/
              (Some 0%Q <> None /\ @None Q = None))
    by (right; split; [discriminate|reflexivity]).
  exact (conj H
          (one_limit_given_raises example_min example_max example_quantile
             example_df 86400 "rsi" None (Some 0%Q) None None "grey" 0.3%Q
             None None None 0%Q "green" None [] H)).
Defined.

End Drawing.
